(** * Distribution models (rtd_test/distributions/distribution_models.py)

    A shallow embedding of the distribution layer: every class of the module
    is a Rocq module holding its methods, objects are records of the
    attributes the constructors assign, tensors carry their shape next to
    their entries, and Python exceptions are values of an error type.

    Tensor entries are exact rationals: the development is about shapes,
    protocol and algebra, not about float32 rounding. *)

From Stdlib Require Import QArith ZArith Lia Lqa.
From stdpp Require Import base gmap list sorting.

Open Scope Z_scope.

(** ** Exceptions and fallible computations *)

Inductive exn : Type :=
| ValueError
| TypeError
| IndexError
| ZeroDivisionError
| AttributeError
| NotImplementedError.

Inductive result (A : Type) : Type :=
| Ok (a : A)
| Raise (e : exn).

Arguments Ok {A} a.
Arguments Raise {A} e.

Definition rbind {A B} (c : result A) (k : A -> result B) : result B :=
  match c with
  | Ok a => k a
  | Raise e => Raise e
  end.

Notation "'let!' x ':=' c 'in' k" := (rbind c (fun x => k))
  (at level 10, x pattern, c at level 100, k at level 200).

Fixpoint rmap {A B} (f : A -> result B) (l : list A) : result (list B) :=
  match l with
  | [] => Ok []
  | a :: l' => let! b := f a in let! bs := rmap f l' in Ok (b :: bs)
  end.

(** ** Tensors *)

Record tensor : Type := Tensor { shape : list nat; data : list Q }.

Definition size_of (s : list nat) : nat := foldr Nat.mul 1%nat s.

(** A tensor is well formed when it holds as many entries as its shape says
    (row-major order). *)
Definition wf (t : tensor) : Prop := length (data t) = size_of (shape t).

(** [t.shape[0]]: the batch dimension. *)
Definition batch_dim (t : tensor) : option nat := head (shape t).

(** [t.shape[i]] for an index the tensor may not have. *)
Definition shape_at (s : list nat) (i : nat) : result nat :=
  match s !! i with
  | Some d => Ok d
  | None => Raise IndexError
  end.

(** *** reshape

    [t.reshape(dims)] keeps the entries and replaces the shape.  One entry of
    [dims] may be [-1]; it is then inferred from the number of entries, as
    numpy does, and the call fails when the entries do not divide evenly. *)

Definition known_dims (dims : list Z) : list nat :=
  map Z.to_nat (filter (fun d => d <> -1) dims).

Definition reshape (t : tensor) (dims : list Z) : result tensor :=
  let total := size_of (shape t) in
  if bool_decide (Exists (fun d => d < -1) dims) then Raise ValueError
  else
    let known := size_of (known_dims dims) in
    match length (filter (fun d => d = -1) dims) with
    | O =>
        if bool_decide (known = total)
        then Ok (Tensor (map Z.to_nat dims) (data t))
        else Raise ValueError
    | S O =>
        if bool_decide (known = 0%nat) then Raise ValueError
        else if bool_decide ((total mod known)%nat = 0%nat)
        then Ok (Tensor (map (fun d => if bool_decide (d = -1)
                                       then (total / known)%nat
                                       else Z.to_nat d) dims) (data t))
        else Raise ValueError
    | _ => Raise ValueError
    end.

(** *** T.extra_ops.repeat(t, r, axis=0)

    Every slice along the first axis is written [r] times in a row. *)

Definition slice0 (t : tensor) (i : nat) : list Q :=
  let w := size_of (tail (shape t)) in
  take w (drop (i * w) (data t)).

Definition slices0 (t : tensor) : list (list Q) :=
  match shape t with
  | [] => []
  | b :: _ => map (slice0 t) (seq 0 b)
  end.

Definition T_repeat (t : tensor) (r : Z) : result tensor :=
  match shape t with
  | [] => Raise ValueError
  | b :: rest =>
      if bool_decide (r < 0) then Raise ValueError
      else Ok (Tensor ((b * Z.to_nat r)%nat :: rest)
                 (concat (map (fun row => concat (replicate (Z.to_nat r) row))
                              (slices0 t))))
  end.

(** *** Two-dimensional views

    A matrix is handled through its slices along the first axis.
    [transpose n m] turns a list [m] of vectors of length [n] into the [n]
    vectors that collect their entries position by position. *)

Fixpoint transpose (n : nat) (m : list (list Q)) : list (list Q) :=
  match m with
  | [] => replicate n []
  | c :: m' => zip_with cons c (transpose n m')
  end.

(** Elementwise product of two vectors, and [1 - v] with the scalar
    broadcast over the vector. *)
Definition vmul (a b : list Q) : list Q := zip_with Qmult a b.
Definition one_minus (v : list Q) : list Q := map (fun a => 1 - a)%Q v.

(** *** theano.scan

    [fn] receives the current element of the sequence and the previous
    outputs and returns the new outputs; the outputs of all steps are stacked.
    Theano does not run a scan of zero steps. *)

Fixpoint scan_steps {X S : Type} (fn : X -> S -> S) (sequences : list X)
    (outputs_info : S) : list S :=
  match sequences with
  | [] => []
  | x :: rest =>
      let out := fn x outputs_info in
      out :: scan_steps fn rest out
  end.

Definition theano_scan {X S : Type} (fn : X -> S -> S) (sequences : list X)
    (outputs_info : S) : result (list S) :=
  match sequences with
  | [] => Raise NotImplementedError
  | _ => Ok (scan_steps fn sequences outputs_info)
  end.

(** ** Lasagne layers

    A layer has an identity, a declared output shape ([None] for a dimension
    left open, as the batch axis usually is), the shared variables it owns
    with their [trainable] tag, and the layers feeding it.  An input layer
    owns nothing and has no incoming layer. *)

Record Param : Type := MkParam { param_id : nat; trainable : bool }.

#[global] Instance Param_eq_dec : EqDecision Param.
Proof. solve_decision. Defined.

#[global] Instance Param_countable : Countable Param.
Proof.
  refine (inj_countable' (fun p => (param_id p, trainable p))
                         (fun q => MkParam q.1 q.2) _).
  intros []; reflexivity.
Defined.

#[local] Set Warnings "-register-all".

Inductive Layer : Type :=
| MkLayer (layer_id : nat) (output_shape : list (option nat))
          (params : list Param) (input_layers : list Layer).

Definition layer_id (l : Layer) : nat :=
  match l with MkLayer i _ _ _ => i end.

(** lasagne.layers.get_output_shape *)
Definition lasagne_get_output_shape (l : Layer) : list (option nat) :=
  match l with MkLayer _ s _ _ => s end.

(** Layer.get_params(trainable=True): the parameters of this layer alone. *)
Definition layer_get_params (l : Layer) : list Param :=
  match l with MkLayer _ _ ps _ => filter (fun p => trainable p = true) ps end.

(** [unique] of lasagne.utils: duplicates removed, first occurrences kept. *)
Fixpoint unique {A} `{EqDecision A} (seen l : list A) : list A :=
  match l with
  | [] => []
  | a :: l' =>
      if bool_decide (a ∈ seen) then unique seen l'
      else a :: unique (a :: seen) l'
  end.

(** lasagne.layers.get_all_params(layer, trainable=True): the parameters of
    every layer below [layer], incoming layers first, without duplicates. *)
Fixpoint collect_params (l : Layer) : list Param :=
  match l with
  | MkLayer _ _ _ ins =>
      (fix below (ls : list Layer) : list Param :=
         match ls with
         | [] => []
         | l' :: rest => collect_params l' ++ below rest
         end) ins ++ layer_get_params l
  end.

Definition get_all_params (l : Layer) : list Param :=
  unique [] (collect_params l).

(** A network is its output layer together with the function it computes
    from the expressions bound to its input layers (keyed by layer identity);
    [deterministic] switches its stochastic regularisation off.  With
    [deterministic] false a network with stochastic layers draws its
    regularisation anew at every call: the function gives the output for
    one draw of it. *)
Record Network : Type := MkNetwork {
  net_layer : Layer;
  net_output : gmap nat tensor -> bool -> tensor
}.

(** lasagne.layers.get_output(network, inputs, deterministic=...) *)
Definition get_output (n : Network) (inputs : gmap nat tensor)
    (deterministic : bool) : tensor :=
  net_output n inputs deterministic.

(** [zip] stops at the shorter of its arguments; on two lists it cannot
    raise. *)
Definition py_zip {A B} (l : list A) (l' : list B) : result (list (A * B)) :=
  Ok (zip l l').

(** [dict(pairs)] keyed by layer identity: a later pair replaces an earlier
    one with the same key. *)
Definition py_dict (pairs : list (Layer * tensor)) : gmap nat tensor :=
  foldl (fun m p => <[layer_id p.1 := p.2]> m) ∅ pairs.

(** ** Elementary samplers

    The classes of distribution_samples.py are used through three methods;
    the random stream they own is passed explicitly as a state of type
    [rng]. *)

Record ElementarySampler (rng : Type) : Type := MkSampler {
  sampler_set_seed : Z -> rng -> rng;
  sampler_sample : list tensor -> rng -> result (tensor * rng);
  sampler_log_likelihood : tensor -> list tensor -> result tensor
}.

Arguments sampler_set_seed {rng} _ _ _.
Arguments sampler_sample {rng} _ _ _.
Arguments sampler_log_likelihood {rng} _ _ _.

(** What [fprop] returns: one tensor, or the pair of a two-network
    distribution. *)
Inductive fprop_out : Type :=
| One (mean : tensor)
| Two (mean var : tensor).

(** Modelled from the spec: [tolist] of rtd_test/utils.py, which is not part
    of the sources at hand.  It turns the result of the forward pass into the
    list of parameter tensors handed to the sampler:
    a single tensor becomes a list of one, a pair the list of its two. *)
Definition tolist (o : fprop_out) : list tensor :=
  match o with
  | One m => [m]
  | Two m v => [m; v]
  end.

(** ** Compiled entry points and construction

    An object keeps two things that change: the random stream of its sampler
    and the four [np_...] attributes that [_set_theano_func] assigns.  A
    constructor is a computation over this state; the state survives an
    exception, so that what had been done when it was raised can be read
    off. *)

Inductive entry : Type := FProp | SampleMean | Sample | LogLikelihood.

Record EntryPoints (rng : Type) : Type := MkEntryPoints {
  np_fprop : option (list tensor -> result fprop_out);
  np_sample_mean_given_x : option (list tensor -> result tensor);
  np_sample_given_x : option (list tensor -> rng -> result (tensor * rng));
  np_log_liklihood_given_x : option (list tensor -> result tensor)
}.

Arguments MkEntryPoints {rng} _ _ _ _.
Arguments np_fprop {rng} _.
Arguments np_sample_mean_given_x {rng} _.
Arguments np_sample_given_x {rng} _.
Arguments np_log_liklihood_given_x {rng} _.

Record State (rng : Type) : Type := MkState {
  stream : rng;
  compiled : EntryPoints rng
}.

Arguments MkState {rng} _ _.
Arguments stream {rng} _.
Arguments compiled {rng} _.

Definition no_entries {rng} : EntryPoints rng :=
  MkEntryPoints None None None None.

Definition construct (rng A : Type) : Type :=
  State rng -> result A * State rng.

Definition cret {rng A} (a : A) : construct rng A := fun st => (Ok a, st).

Definition craise {rng A} (e : exn) : construct rng A :=
  fun st => (Raise e, st).

Definition cbind {rng A B} (c : construct rng A) (k : A -> construct rng B)
  : construct rng B :=
  fun st =>
    match c st with
    | (Ok a, st') => k a st'
    | (Raise e, st') => (Raise e, st')
    end.

Notation "'let*' x ':=' c 'in' k" := (cbind c (fun x => k))
  (at level 10, x pattern, c at level 100, k at level 200).

Definition on_stream {rng} (f : rng -> result rng) : construct rng unit :=
  fun st =>
    match f (stream st) with
    | Ok r => (Ok tt, MkState r (compiled st))
    | Raise e => (Raise e, st)
    end.

Definition on_entries {rng} (f : EntryPoints rng -> EntryPoints rng)
  : construct rng unit :=
  fun st => (Ok tt, MkState (stream st) (f (compiled st))).

(** Symbolic variables: the input variable of a layer, or a free variable
    of a given rank. *)
Inductive variable : Type :=
| InputVar (layer : nat)
| FreeVar (ndim : nat).

(** [theano.function(inputs, outputs)]: the compiled function evaluates the
    graph on concrete arrays, one per declared input. *)
Definition theano_function {B} (inputs : list variable)
    (graph : list tensor -> B)
    (bad_arity : B) : list tensor -> B :=
  fun args =>
    if bool_decide (length args = length inputs) then graph args
    else bad_arity.

(** The methods of the class of [self], as dynamic dispatch finds them.
    [m_symbolic] is what calling a method on the symbolic input variables
    does while a graph is built: the exception it raises, or the state in
    which it leaves the random stream (random operations claim stream state
    when they enter a graph). *)
Record Methods (rng : Type) : Type := MkMethods {
  m_fprop : list tensor -> bool -> result fprop_out;
  m_sample_mean_given_x : list tensor -> bool -> result (list tensor * tensor);
  m_sample_given_x :
    list tensor -> Z -> bool -> rng -> result ((list tensor * tensor) * rng);
  m_log_likelihood_given_x : list tensor * tensor -> bool -> result tensor;
  m_symbolic : entry -> rng -> result rng
}.

Arguments m_fprop {rng} _ _ _.
Arguments m_sample_mean_given_x {rng} _ _ _.
Arguments m_sample_given_x {rng} _ _ _ _ _.
Arguments m_log_likelihood_given_x {rng} _ _ _.
Arguments m_symbolic {rng} _ _ _.

Module Distribution.
Section WithStream.
Context {rng : Type}.

(** The attributes [__init__] assigns.  [inputs] holds the input variable
    of every conditioning layer, [output] is a fresh variable of the rank of
    the declared output shape. *)
Record obj : Type := MkObj {
  distribution : ElementarySampler rng;
  mean_network : Network;
  given : list Layer;
  inputs : list variable;
  output : variable;
  set_log_likelihood : bool
}.

Definition get_params (self : obj) : list Param :=
  get_all_params (net_layer (mean_network self)).

(** The [except] clause guards [dict(zip(...))]. *)
Definition fprop (self : obj) (x : list tensor) (deterministic : bool)
  : result tensor :=
  match py_zip (given self) x with
  | Raise _ => Raise ValueError
  | Ok pairs =>
      let inputs := py_dict pairs in
      let mean := get_output (mean_network self) inputs deterministic in
      Ok mean
  end.

Definition get_input_shape (self : obj) : list (list (option nat)) :=
  map lasagne_get_output_shape (given self).

Definition get_output_shape (self : obj) : list (option nat) :=
  lasagne_get_output_shape (net_layer (mean_network self)).

(** [self_fprop] is [self.fprop], which a subclass may override. *)
Definition sample_given_x
    (self_fprop : list tensor -> bool -> result fprop_out)
    (self : obj) (x : list tensor) (repeat : Z) (deterministic : bool)
  : rng -> result ((list tensor * tensor) * rng) :=
  fun r =>
    let! x := (if bool_decide (repeat <> 1)
               then rmap (fun _x => T_repeat _x repeat) x
               else Ok x) in
    let! output := self_fprop x deterministic in
    let! (v, r') := sampler_sample (distribution self) (tolist output) r in
    Ok ((x, v), r').

Definition sample_mean_given_x
    (self_fprop : list tensor -> bool -> result fprop_out)
    (self : obj) (x : list tensor) (deterministic : bool)
  : result (list tensor * tensor) :=
  let! output := self_fprop x deterministic in
  match tolist output with
  | m :: _ => Ok (x, m)
  | [] => Raise IndexError
  end.

Definition log_likelihood_given_x
    (self_fprop : list tensor -> bool -> result fprop_out)
    (self : obj) (samples : list tensor * tensor) (deterministic : bool)
  : result tensor :=
  let '(x, sample) := samples in
  let! output := self_fprop x deterministic in
  sampler_log_likelihood (distribution self) sample (tolist output).

Definition _set_theano_func (cls : Methods rng) (self : obj)
  : construct rng unit :=
  let x := inputs self in
  let* _ := on_stream (m_symbolic cls FProp) in
  let* _ := on_entries (fun e =>
    MkEntryPoints
      (Some (theano_function x (fun xs => m_fprop cls xs true)
                             (Raise TypeError)))
      (np_sample_mean_given_x e) (np_sample_given_x e)
      (np_log_liklihood_given_x e)) in
  let* _ := on_stream (m_symbolic cls SampleMean) in
  let* _ := on_entries (fun e =>
    MkEntryPoints (np_fprop e)
      (Some (theano_function x
               (fun xs => let! samples := m_sample_mean_given_x cls xs true in
                          Ok samples.2)
               (Raise TypeError)))
      (np_sample_given_x e) (np_log_liklihood_given_x e)) in
  let* _ := on_stream (m_symbolic cls Sample) in
  let* _ := on_entries (fun e =>
    MkEntryPoints (np_fprop e) (np_sample_mean_given_x e)
      (Some (theano_function x
               (fun xs r =>
                  let! (samples, r') := m_sample_given_x cls xs 1 true r in
                  Ok (samples.2, r'))
               (fun _ => Raise TypeError)))
      (np_log_liklihood_given_x e)) in
  if set_log_likelihood self then
    let sample := output self in
    let* _ := on_stream (m_symbolic cls LogLikelihood) in
    on_entries (fun e =>
      MkEntryPoints (np_fprop e) (np_sample_mean_given_x e)
        (np_sample_given_x e)
        (Some (theano_function (x ++ [sample])
                 (fun args =>
                    match last args with
                    | Some s =>
                        m_log_likelihood_given_x cls (take (length x) args, s)
                                                 true
                    | None => Raise TypeError
                    end)
                 (Raise TypeError))))
  else cret tt.

(** The sampler is seeded, the graphs are built and compiled, and the
    sampler is seeded again. *)
Definition set_seed (cls : Methods rng) (self : obj) (seed : Z)
  : construct rng unit :=
  let seed_sampler :=
    on_stream (fun r => Ok (sampler_set_seed (distribution self) seed r)) in
  let* _ := seed_sampler in  (* for compiling theano functions *)
  let* _ := _set_theano_func cls self in
  seed_sampler.  (* for actual sampling *)

(** [cls] maps the object under construction to the methods of its class;
    a subclass constructor passes its own. *)
Definition __init__ (cls : obj -> Methods rng)
    (distribution : ElementarySampler rng) (mean_network : Network)
    (given : list Layer) (seed : Z) (set_log_likelihood : bool)
  : construct rng obj :=
  let _output_shape := lasagne_get_output_shape (net_layer mean_network) in
  let self := MkObj distribution mean_network given
                    (map (fun x => InputVar (layer_id x)) given)
                    (FreeVar (length _output_shape)) set_log_likelihood in
  let* _ := set_seed (cls self) self seed in
  cret self.

(** The methods of a plain [Distribution]. *)
Definition methods (symbolic : entry -> rng -> result rng) (self : obj)
  : Methods rng :=
  let self_fprop := fun x d => let! m := fprop self x d in Ok (One m) in
  MkMethods rng self_fprop
    (sample_mean_given_x self_fprop self)
    (sample_given_x self_fprop self)
    (log_likelihood_given_x self_fprop self)
    symbolic.

End WithStream.
Arguments obj : clear implicits.
End Distribution.

(** ** Python helpers used by the subclasses *)

(** [l.index(a)]: the position of the first occurrence.  It is applied to
    members of [l] only. *)
Fixpoint py_index {A} `{EqDecision A} (l : list A) (a : A) : nat :=
  match l with
  | [] => 0%nat
  | b :: l' => if decide (a = b) then 0%nat else S (py_index l' a)
  end.

(** [sorted(s, key=key)] *)
Definition by_key {A} (key : A -> nat) : relation A :=
  fun a b => (key a <= key b)%nat.

#[global] Instance by_key_dec {A} (key : A -> nat) (a b : A)
  : Decision (by_key key a b) := decide (key a <= key b)%nat.

Definition py_sorted {A} (key : A -> nat) (s : list A) : list A :=
  merge_sort (by_key key) s.

(** [set(l)], enumerated in the order the set happens to have. *)
Definition py_set (l : list Param) : list Param :=
  elements (list_to_set l : gset Param).

(** The interpreter decides what [/] does to two integers. *)
Inductive python : Type := Python2 | Python3.

(** [a / b] on two integer shape entries.  Under Python 2 it is the integer
    quotient, rounded down (0 for a divisor 0, as numpy has it); under
    Python 3 it is a true division whose result is a float and no integer
    ([None]). *)
Definition py_div (py : python) (a b : Z) : option Z :=
  match py with
  | Python2 => Some (a / b)
  | Python3 => None
  end.

(** [reshape] takes a shape made of integers and refuses any other. *)
Definition integer_dim (d : option Z) : result Z :=
  match d with
  | Some d => Ok d
  | None => Raise TypeError
  end.

(** [t[-1]] on a tuple. *)
Definition py_last {A} (l : list A) : result A :=
  match last l with
  | Some a => Ok a
  | None => Raise IndexError
  end.

Module DistributionDouble.
Section WithStream.
Context {rng : Type}.

Record obj : Type := MkObj {
  base : Distribution.obj rng;
  var_network : Network
}.

Definition get_params (self : obj) : list Param :=
  let params := Distribution.get_params (base self) in
  let params := params ++ layer_get_params (net_layer (var_network self)) in
  (* delete duplicated paramaters *)
  let params := py_sorted (py_index params) (py_set params) in
  params.

Definition fprop (self : obj) (x : list tensor) (deterministic : bool)
  : result fprop_out :=
  let! mean := Distribution.fprop (base self) x deterministic in
  let inputs := py_dict (zip (Distribution.given (base self)) x) in
  let var := get_output (var_network self) inputs deterministic in
  Ok (Two mean var).

Definition methods (symbolic : entry -> rng -> result rng) (self : obj)
  : Methods rng :=
  MkMethods rng (fprop self)
    (Distribution.sample_mean_given_x (fprop self) (base self))
    (Distribution.sample_given_x (fprop self) (base self))
    (Distribution.log_likelihood_given_x (fprop self) (base self))
    symbolic.

(** [var_network] is assigned first, the base constructor runs, and the
    declared output shapes of the two networks are compared last. *)
Definition __init__ (cls : obj -> Methods rng)
    (distribution : ElementarySampler rng)
    (mean_net var_net : Network) (given : list Layer) (seed : Z)
  : construct rng obj :=
  let* b := Distribution.__init__ (fun b => cls (MkObj b var_net))
              distribution mean_net given seed true in
  let self := MkObj b var_net in
  if bool_decide (Distribution.get_output_shape (base self)
                  <> lasagne_get_output_shape (net_layer (var_network self)))
  then craise ValueError
  else cret self.

End WithStream.
Arguments obj : clear implicits.
End DistributionDouble.

Module Deterministic.
Section WithStream.
Context {rng : Type}.

(** Modelled from the spec: [DeterministicSample] of
    distribution_samples.py, which is not part of the sources at hand.  The
    family is a point mass on its single parameter, so a sample is the mean
    itself, and its log-likelihood is not defined: asking for it raises.
    [reseed] is what seeding does to the stream. *)
Definition DeterministicSample (reseed : Z -> rng -> rng)
  : ElementarySampler rng :=
  MkSampler rng reseed
    (fun parameters r =>
       match parameters with
       | [mean] => Ok (mean, r)
       | _ => Raise TypeError
       end)
    (fun _ _ => Raise NotImplementedError).

Definition __init__ (symbolic : entry -> rng -> result rng)
    (reseed : Z -> rng -> rng) (network : Network) (given : list Layer)
    (seed : Z) : construct rng (Distribution.obj rng) :=
  let distribution := DeterministicSample reseed in
  Distribution.__init__ (Distribution.methods symbolic)
    distribution network given seed false.

(** Not overridden: the method of the base class. *)
Definition log_likelihood_given_x (self : Distribution.obj rng)
    (samples : list tensor * tensor) (deterministic : bool) : result tensor :=
  Distribution.log_likelihood_given_x
    (fun x d => let! m := Distribution.fprop self x d in Ok (One m))
    self samples deterministic.

End WithStream.
End Deterministic.

Module Categorical.
Section WithStream.
Context {rng : Type}.

(** [k] is the last entry of the declared output shape, which may be an
    open dimension ([None]). *)
Record obj : Type := MkObj {
  base : Distribution.obj rng;
  n_dim : Z;
  k : option nat
}.

(** [self.n_dim * self.k] *)
Definition n_dim_times_k (self : obj) : result Z :=
  match k self with
  | Some k => Ok (n_dim self * Z.of_nat k)
  | None => Raise TypeError
  end.

Definition sample_given_x (self : obj) (x : list tensor) (repeat : Z)
    (deterministic : bool) : rng -> result ((list tensor * tensor) * rng) :=
  fun r =>
    let! x := (if bool_decide (repeat <> 1)
               then rmap (fun _x => T_repeat _x repeat) x
               else Ok x) in
    (* use fprop of super class *)
    let! mean := Distribution.fprop (base self) x deterministic in
    let! (v, r') := sampler_sample (Distribution.distribution (base self))
                      [mean] r in
    let! w := n_dim_times_k self in
    let! output := reshape v [-1; w] in
    Ok ((x, output), r').

Definition fprop (self : obj) (x : list tensor) (deterministic : bool)
  : result tensor :=
  let! mean := Distribution.fprop (base self) x deterministic in
  let! w := n_dim_times_k self in
  let! mean := reshape mean [-1; w] in
  Ok mean.

Definition methods (symbolic : entry -> rng -> result rng) (self : obj)
  : Methods rng :=
  let self_fprop := fun x d => let! m := fprop self x d in Ok (One m) in
  MkMethods rng self_fprop
    (Distribution.sample_mean_given_x self_fprop (base self))
    (sample_given_x self)
    (Distribution.log_likelihood_given_x self_fprop (base self))
    symbolic.

(** [distribution] stands for [CategoricalSample(temp=temp, seed=seed)]. *)
Definition __init__ (symbolic : entry -> rng -> result rng)
    (distribution : ElementarySampler rng) (mean_network : Network)
    (given : list Layer) (n_dim : Z) (seed : Z) : construct rng obj :=
  match py_last (lasagne_get_output_shape (net_layer mean_network)) with
  | Raise e => craise e
  | Ok k =>
      let* b := Distribution.__init__
                  (fun b => methods symbolic (MkObj b n_dim k))
                  distribution mean_network given seed true in
      cret (MkObj b n_dim k)
  end.

End WithStream.
Arguments obj : clear implicits.
End Categorical.

Module Kumaraswamy.
Section WithStream.
Context {rng : Type}.

Record obj : Type := MkObj {
  base : DistributionDouble.obj rng;
  stick_breaking : bool
}.

(** One step of the scan: the new segment is cut from what remained. *)
Definition segment (v : list Q) (outputs : list Q * list Q)
  : list Q * list Q :=
  let '(stick_segment, remaining_stick) := outputs in
  let stick_segment := vmul v remaining_stick in
  let remaining_stick := vmul remaining_stick (one_minus v) in
  (stick_segment, remaining_stick).

(** The scan runs over the columns of [v] but the last, carrying one
    segment and one remaining stick per batch row; the segments, transposed
    back, are completed by the last remaining stick as a final column. *)
Definition _stick_breaking_process (v : tensor) : result tensor :=
  match shape v with
  | [n_batch; n_dim] =>
      let stick_segment := replicate n_batch 0%Q in
      let remaining_stick := replicate n_batch 1%Q in
      let! outputs :=
        theano_scan segment (removelast (transpose n_dim (slices0 v)))
                    (stick_segment, remaining_stick) in
      let stick_segments := map fst outputs in
      let remaining_sticks := map snd outputs in
      let! last_remaining := py_last remaining_sticks in
      Ok (Tensor [n_batch; (length stick_segments + 1)%nat]
            (concat (zip_with (fun segments r => segments ++ [r])
                              (transpose n_batch stick_segments)
                              last_remaining)))
  | _ => Raise ValueError
  end.

Definition sample_given_x (self : obj) (x : list tensor) (repeat : Z)
    (deterministic : bool) : rng -> result ((list tensor * tensor) * rng) :=
  fun r =>
    let! ((x, v), r') :=
      Distribution.sample_given_x (DistributionDouble.fprop (base self))
        (DistributionDouble.base (base self)) x repeat deterministic r in
    if stick_breaking self then
      let! v := _stick_breaking_process v in
      Ok ((x, v), r')
    else Ok ((x, v), r').

(** The signature is [(self, *args)]: any positional arguments. *)
Definition log_likelihood_given_x (self : obj)
    (args : list (list tensor * tensor)) : result tensor :=
  Raise NotImplementedError.

(** A call [self.log_likelihood_given_x(arg, ..., deterministic=d)], the
    keyword present or not: the signature has no place for a keyword, so a
    call that gives one raises [TypeError] before the body runs. *)
Definition call_log_likelihood_given_x (self : obj)
    (args : list (list tensor * tensor)) (deterministic : option bool)
  : result tensor :=
  match deterministic with
  | Some _ => Raise TypeError
  | None => log_likelihood_given_x self args
  end.

(** The base class calls [self.log_likelihood_given_x] with the keyword
    [deterministic]; the override accepts no keyword, so the call itself
    fails, also while the graphs are built. *)
Definition methods (symbolic : entry -> rng -> result rng) (self : obj)
  : Methods rng :=
  let self_fprop := DistributionDouble.fprop (base self) in
  MkMethods rng self_fprop
    (Distribution.sample_mean_given_x self_fprop
       (DistributionDouble.base (base self)))
    (sample_given_x self)
    (fun samples deterministic =>
       call_log_likelihood_given_x self [samples] (Some deterministic))
    (fun e r =>
       match e with
       | LogLikelihood => Raise TypeError
       | _ => symbolic e r
       end).

(** [distribution] stands for [KumaraswamySample(seed=seed)]. *)
Definition __init__ (symbolic : entry -> rng -> result rng)
    (distribution : ElementarySampler rng) (a_network b_network : Network)
    (given : list Layer) (stick_breaking : bool) (seed : Z)
  : construct rng obj :=
  let* d := DistributionDouble.__init__
              (fun d => methods symbolic (MkObj d stick_breaking))
              distribution a_network b_network given seed in
  cret (MkObj d stick_breaking).

End WithStream.
Arguments obj : clear implicits.
End Kumaraswamy.

Module Dirichlet.
Section WithStream.
Context {rng : Type}.

Record obj : Type := MkObj {
  base : Distribution.obj rng;
  k : Z
}.

Definition sample_given_x (py : python) (self : obj) (x : list tensor)
    (repeat : Z) (deterministic : bool)
  : rng -> result ((list tensor * tensor) * rng) :=
  fun r =>
    let! x := (if bool_decide (repeat <> 1)
               then rmap (fun _x => T_repeat _x repeat) x
               else Ok x) in
    (* use fprop of super class *)
    let! mean := Distribution.fprop (base self) x deterministic in
    let _shape := shape mean in
    let! s0 := shape_at _shape 0 in
    let! s1 := shape_at _shape 1 in
    let! d := integer_dim (py_div py (Z.of_nat s1) (k self)) in
    let! mean := reshape mean [Z.of_nat s0; d; k self] in
    let! (v, r') := sampler_sample (Distribution.distribution (base self))
                      [mean] r in
    let! output := reshape v (map Z.of_nat _shape) in
    Ok ((x, output), r').

(** Under Python 3 the reshape refuses the float quotient while the graph
    of the sample is built. *)
Definition methods (py : python) (symbolic : entry -> rng -> result rng)
    (self : obj) : Methods rng :=
  let self_fprop :=
    fun x d => let! m := Distribution.fprop (base self) x d in Ok (One m) in
  MkMethods rng self_fprop
    (Distribution.sample_mean_given_x self_fprop (base self))
    (sample_given_x py self)
    (Distribution.log_likelihood_given_x self_fprop (base self))
    (fun e r =>
       match py, e with
       | Python3, Sample => Raise TypeError
       | _, _ => symbolic e r
       end).

(** [distribution] stands for [DirichletSample(k, ...)]. *)
Definition __init__ (py : python) (symbolic : entry -> rng -> result rng)
    (distribution : ElementarySampler rng) (alpha_network : Network)
    (given : list Layer) (k : Z) (seed : Z) : construct rng obj :=
  let* b := Distribution.__init__ (fun b => methods py symbolic (MkObj b k))
              distribution alpha_network given seed true in
  cret (MkObj b k).

End WithStream.
Arguments obj : clear implicits.
End Dirichlet.

(** ** The stick-breaking fold, row by row

    The construction as the specification words it, for one batch row: start
    with a remaining mass of one; every entry but the last cuts its share
    from what remains; the last weight is what is left. *)

Fixpoint spec_stick_fold (remaining : Q) (v : list Q) : list Q * Q :=
  match v with
  | [] => ([], remaining)
  | vi :: rest =>
      let '(segments, final) :=
        spec_stick_fold (remaining * (1 - vi))%Q rest in
      ((vi * remaining)%Q :: segments, final)
  end.

Definition spec_close_row (remaining : Q) (v : list Q) : list Q :=
  let '(segments, final) := spec_stick_fold remaining v in segments ++ [final].

Definition spec_stick_row (row : list Q) : list Q :=
  spec_close_row 1 (removelast row).

Definition Qsum (l : list Q) : Q := foldr Qplus 0%Q l.

(** ** Using the compiled sampling entry point

    Successive calls of [np_sample_given_x] draw from the stream one after
    the other; an attribute that was never assigned cannot be called. *)

Fixpoint sample_sequence {rng}
    (f : list tensor -> rng -> result (tensor * rng))
    (calls : list (list tensor)) (r : rng) : result (list tensor) :=
  match calls with
  | [] => Ok []
  | xs :: rest =>
      let! (v, r') := f xs r in
      let! vs := sample_sequence f rest r' in
      Ok (v :: vs)
  end.

Definition draws {rng} (st : State rng) (calls : list (list tensor))
  : result (list tensor) :=
  match np_sample_given_x (compiled st) with
  | Some f => sample_sequence f calls (stream st)
  | None => Raise AttributeError
  end.

(** The inputs [sample_given_x] works on: repeated unless [repeat] is 1. *)
Definition repeated (x : list tensor) (repeat : Z) : result (list tensor) :=
  if bool_decide (repeat <> 1)
  then rmap (fun _x => T_repeat _x repeat) x
  else Ok x.

(** ** Concrete layers, networks and samplers

    Small instances on which the definitions above are evaluated.  The
    stream state is an integer. *)

Module Examples.

Definition in0 : Layer := MkLayer 0 [None; Some 2%nat] [] [].
Definition in1 : Layer := MkLayer 1 [None; Some 2%nat] [] [].

(** A network that hands on what is bound to input layer [i]. *)
Definition pass (i : nat) (declared : list (option nat)) : Network :=
  MkNetwork (MkLayer (10 + i) declared [] [MkLayer i declared [] []])
    (fun inputs _ => default (Tensor [] []) (inputs !! i)).

(** A sampler whose draw shifts its first parameter by the stream state
    and advances the stream; seeding resets the stream. *)
Definition shift_sampler : ElementarySampler Z :=
  MkSampler Z (fun seed _ => seed)
    (fun parameters r =>
       match parameters with
       | p :: _ =>
           Ok (Tensor (shape p) (map (fun q => q + inject_Z r)%Q (data p)),
               r + 1)
       | [] => Raise TypeError
       end)
    (fun sample _ =>
       Ok (Tensor (take 1 (shape sample))
                  (replicate (default 0%nat (batch_dim sample)) 0%Q))).

(** A sampler whose draw is its first parameter. *)
Definition echo_sampler : ElementarySampler Z :=
  MkSampler Z (fun seed _ => seed)
    (fun parameters r =>
       match parameters with
       | p :: _ => Ok (p, r + 1)
       | [] => Raise TypeError
       end)
    (fun _ _ => Raise NotImplementedError).

Definition slow_graphs : entry -> Z -> result Z := fun _ r => Ok (r + 7).
Definition fast_graphs : entry -> Z -> result Z := fun _ r => Ok (r + 1).

Definition fresh : State Z := MkState 0 no_entries.
Definition used : State Z := MkState 42 no_entries.

(** A distribution conditioned on two inputs. *)
Definition two_inputs : Distribution.obj Z :=
  Distribution.MkObj shift_sampler (pass 0 [None; Some 2%nat]) [in0; in1]
    [InputVar 0; InputVar 1] (FreeVar 2) true.

Definition one_input : Distribution.obj Z :=
  Distribution.MkObj shift_sampler (pass 0 [None; Some 2%nat]) [in0]
    [InputVar 0] (FreeVar 2) true.

Definition plain (self : Distribution.obj Z)
  : list tensor -> bool -> result fprop_out :=
  fun x d => let! m := Distribution.fprop self x d in Ok (One m).

Definition t22 : tensor := Tensor [2%nat; 2%nat] [1; 2; 3; 4]%Q.
Definition half_half : tensor := Tensor [1%nat; 2%nat] [1 # 2; 1 # 2]%Q.
Definition half_half_third : tensor :=
  Tensor [1%nat; 3%nat] [1 # 2; 1 # 2; 1 # 3]%Q.

(** A Kumaraswamy object whose raw draw is the input itself. *)
Definition kumaraswamy (stick_breaking : bool) : Kumaraswamy.obj Z :=
  Kumaraswamy.MkObj
    (DistributionDouble.MkObj
       (Distribution.MkObj echo_sampler (pass 0 [None; Some 3%nat]) [in0]
       [InputVar 0] (FreeVar 2) true)
       (pass 0 [None; Some 3%nat]))
    stick_breaking.

(** Two networks whose declared output shapes are (batch, 10) and
    (batch, 8). *)
Definition wide : Network := pass 0 [None; Some 10%nat].
Definition narrow : Network := pass 0 [None; Some 8%nat].

(** A Dirichlet object with k = 4 on a predictor of shape (batch, 2*4). *)
Definition dirichlet : Dirichlet.obj Z :=
  Dirichlet.MkObj
    (Distribution.MkObj shift_sampler (pass 0 [None; Some 8%nat]) [in0]
       [InputVar 0] (FreeVar 2) true)
    4.

Definition t28 : tensor := Tensor [2%nat; 8%nat] (replicate 16 1%Q).

(** Categorical predictors declaring (batch, 6) and (batch, 2, 3). *)
Definition flat6 : Network := pass 0 [None; Some 6%nat].
Definition two_by_three : Network := pass 0 [None; Some 2%nat; Some 3%nat].

Definition t16 : tensor := Tensor [1%nat; 6%nat] (replicate 6 1%Q).
Definition t26 : tensor := Tensor [2%nat; 6%nat] (replicate 12 1%Q).
Definition t123 : tensor := Tensor [1%nat; 2%nat; 3%nat] (replicate 6 1%Q).

Definition categorical : Categorical.obj Z :=
  Categorical.MkObj
    (Distribution.MkObj shift_sampler two_by_three [in0]
       [InputVar 0] (FreeVar 3) true)
    2 (Some 3%nat).

(** A mean network of one layer, and a variance network with a hidden
    layer of its own below its output layer. *)
Definition W (i : nat) : Param := MkParam i true.

Definition mean_head : Layer := MkLayer 11 [None; Some 2%nat] [W 1; W 2] [in0].
Definition var_hidden : Layer := MkLayer 12 [None; Some 5%nat] [W 3; W 4] [in0].
Definition var_head : Layer := MkLayer 13 [None; Some 2%nat] [W 5; W 6] [var_hidden].

Definition gaussian_like : DistributionDouble.obj Z :=
  DistributionDouble.MkObj
    (Distribution.MkObj shift_sampler
       (MkNetwork mean_head (fun _ _ => Tensor [] [])) [in0]
       [InputVar 0] (FreeVar 2) true)
    (MkNetwork var_head (fun _ _ => Tensor [] [])).

(** A deterministic distribution. *)
Definition deterministic : Distribution.obj Z :=
  Distribution.MkObj (Deterministic.DeterministicSample (fun seed _ => seed))
    (pass 0 [None; Some 2%nat]) [in0]
    [InputVar 0] (FreeVar 2) false.

End Examples.

(** ** Notions used to state further properties *)

(** A weight between 0 and 1. *)
Definition in_unit (q : Q) : Prop := (0 <= q /\ q <= 1)%Q.

(** Every slice along the first axis written [r] times in a row. *)
Definition rows_repeated (r : nat) (rows : list (list Q)) : list (list Q) :=
  concat (map (replicate r) rows).

Module Instances.

(** Mean and variance heads on a shared hidden layer. *)
Definition trunk : Layer :=
  MkLayer 20 [None; Some 5%nat] [MkParam 1 true; MkParam 2 true]
    [Examples.in0].
Definition shared_mean : Layer :=
  MkLayer 21 [None; Some 2%nat] [MkParam 3 true; MkParam 4 false] [trunk].
Definition shared_var : Layer :=
  MkLayer 22 [None; Some 2%nat] [MkParam 5 true; MkParam 3 true] [trunk].

Definition shared : DistributionDouble.obj Z :=
  DistributionDouble.MkObj
    (Distribution.MkObj Examples.shift_sampler
       (MkNetwork shared_mean (fun _ _ => Tensor [] [])) [Examples.in0]
       [InputVar 0] (FreeVar 2) true)
    (MkNetwork shared_var (fun _ _ => Tensor [] [])).

(** A two-network distribution whose networks hand on inputs 0 and 1. *)
Definition two_heads : DistributionDouble.obj Z :=
  DistributionDouble.MkObj Examples.two_inputs
    (Examples.pass 1 [None; Some 2%nat]).

(** Graph construction that cannot build a log-likelihood. *)
Definition no_likelihood_graph : entry -> Z -> result Z :=
  fun e r =>
    match e with
    | LogLikelihood => Raise NotImplementedError
    | _ => Ok (r + 1)
    end.

Definition t23 : tensor :=
  Tensor [2%nat; 3%nat] [1 # 2; 1 # 3; 1 # 5; 0; 1; 1 # 7]%Q.
Definition t23' : tensor :=
  Tensor [2%nat; 3%nat] [1 # 2; 1 # 3; 9 # 10; 0; 1; 0]%Q.

Definition t27 : tensor := Tensor [2%nat; 7%nat] (replicate 14 1%Q).

End Instances.

(** ** Lemmas on tensors and matrices *)

Section MatrixLemmas.

Lemma length_transpose n m :
  length (transpose n m) = n \/ exists c, c ∈ m /\ length c <> n.
Proof.
  induction m as [|c m IH]; simpl.
  - left. apply length_replicate.
  - destruct (decide (length c = n)) as [Hc|Hc].
    + destruct IH as [IH|(c' & Hin & Hc')].
      * left. rewrite length_zip_with, IH, Hc. lia.
      * right. exists c'. split; [by right | done].
    + right. exists c. split; [by left | done].
Qed.

Lemma length_transpose_uniform n m :
  Forall (fun c => length c = n) m -> length (transpose n m) = n.
Proof.
  intros Hm. destruct (length_transpose n m) as [H|(c & Hin & Hc)]; [done|].
  rewrite Forall_forall in Hm. by apply Hm in Hin.
Qed.


Lemma removelast_take {A} (l : list A) : removelast l = take (length l - 1) l.
Proof.
  rewrite removelast_firstn_len. f_equal. lia.
Qed.

Lemma removelast_transpose n m :
  Forall (fun c => length c = n) m ->
  removelast (transpose n m) = transpose (n - 1) (map (fun c => removelast c) m).
Proof.
  induction 1 as [|c m Hc Hm IH]; simpl.
  - rewrite removelast_take, length_replicate, take_replicate.
    f_equal. lia.
  - rewrite <- IH, !removelast_take, length_zip_with, zip_with_take.
    rewrite (length_transpose_uniform n m Hm), Hc.
    by replace (n `min` n - 1)%nat with (n - 1)%nat by lia.
Qed.

Lemma transpose_cons_rows n (row : list Q) (t : list (list Q)) :
  length row = length t ->
  transpose (S n) (zip_with cons row t) = row :: transpose n t.
Proof.
  revert t. induction row as [|a row IH]; intros [|c t] Hlen;
    simplify_eq/=; [done|].
  by rewrite IH.
Qed.

Lemma transpose_involutive n (m : list (list Q)) :
  Forall (fun c => length c = n) m ->
  transpose (length m) (transpose n m) = m.
Proof.
  induction 1 as [|c m Hc Hm IH]; simpl.
  - by destruct n.
  - rewrite transpose_cons_rows, IH; [done|].
    by rewrite length_transpose_uniform.
Qed.

End MatrixLemmas.

Section StickBreaking.

Lemma close_row_cons rem c x :
  spec_close_row rem (c :: x)
  = (c * rem)%Q :: spec_close_row (rem * (1 - c))%Q x.
Proof.
  unfold spec_close_row. simpl. by destruct (spec_stick_fold _ x).
Qed.

Lemma zip_close_cons (a : list Q) (t : list (list Q)) (f : list Q) :
  zip_with (fun segments r => segments ++ [r]) (zip_with cons a t) f
  = zip_with cons a (zip_with (fun segments r => segments ++ [r]) t f).
Proof.
  apply list_eq. intros i. rewrite !lookup_zip_with.
  by destruct (a !! i), (t !! i), (f !! i).
Qed.

Lemma zip_close_row_cons (rem c : list Q) (x : list (list Q)) :
  zip_with spec_close_row rem (zip_with cons c x)
  = zip_with cons (vmul c rem)
      (zip_with spec_close_row (vmul rem (one_minus c)) x).
Proof.
  apply list_eq. intros i. unfold vmul, one_minus.
  rewrite !lookup_zip_with, list_lookup_fmap.
  destruct (rem !! i), (c !! i), (x !! i); simpl; try done.
  by rewrite close_row_cons.
Qed.

(** The column-wise scan computes, in every batch row, the fold of that
    row. *)
Lemma scan_rows n (cs : list (list Q)) :
  Forall (fun c => length c = n) cs ->
  forall s0 rem, length rem = n ->
    let outputs := scan_steps (@Kumaraswamy.segment) cs (s0, rem) in
    zip_with (fun segments r => segments ++ [r])
             (transpose n (map fst outputs))
             (default rem (last (map snd outputs)))
    = zip_with spec_close_row rem (transpose n cs).
Proof.
  induction 1 as [|c cs Hc Hcs IH]; intros s0 rem Hrem; simpl.
  - rewrite zip_with_replicate_l by lia.
    rewrite zip_with_replicate_r by lia.
    reflexivity.
  - rewrite last_cons.
    specialize (IH (vmul c rem) (vmul rem (one_minus c))).
    simpl in IH.
    rewrite zip_close_cons, zip_close_row_cons. f_equal.
    rewrite <- IH.
    + by destruct (last _).
    + unfold vmul, one_minus. rewrite length_zip_with, length_fmap. lia.
Qed.

End StickBreaking.

Section Slices.

Lemma chunks_concat w (rs : list (list Q)) :
  Forall (fun r => length r = w) rs ->
  map (fun i => take w (drop (i * w) (concat rs))) (seq 0 (length rs)) = rs.
Proof.
  induction 1 as [|r rs Hr Hrs IH]; [done|].
  cbn [length seq map concat]. f_equal.
  - rewrite Nat.mul_0_l, drop_0. by rewrite take_app_length'.
  - rewrite <- fmap_S_seq, <- list_fmap_compose.
    rewrite <- IH at 2. apply map_ext. intros i. simpl.
    by rewrite drop_app_add'.
Qed.

Lemma slices0_concat w rest (rs : list (list Q)) :
  size_of rest = w ->
  Forall (fun r => length r = w) rs ->
  slices0 (Tensor (length rs :: rest) (concat rs)) = rs.
Proof.
  intros Hw Hrs. unfold slices0, slice0. simpl. rewrite Hw.
  by apply chunks_concat.
Qed.

Lemma slices0_length v b rest :
  shape v = b :: rest -> length (slices0 v) = b.
Proof.
  intros Hs. unfold slices0. rewrite Hs, length_map. apply length_seq.
Qed.

Lemma slices0_widths v b rest :
  shape v = b :: rest -> wf v ->
  Forall (fun r => length r = size_of rest) (slices0 v).
Proof.
  intros Hs Hwf. unfold slices0, slice0, wf in *. rewrite Hs in *.
  simpl in *. apply Forall_fmap, Forall_forall. intros i Hi.
  apply elem_of_seq in Hi. simpl.
  rewrite length_take, length_drop, Hwf. nia.
Qed.

Lemma length_concat_uniform {A} w (rs : list (list A)) :
  Forall (fun r => length r = w) rs ->
  length (concat rs) = (length rs * w)%nat.
Proof.
  induction 1 as [|r rs Hr _ IH]; simpl; [done|].
  rewrite length_app, IH, Hr. lia.
Qed.

End Slices.

Section StickBreakingProcess.

Lemma transpose_widths n (m : list (list Q)) :
  Forall (fun c => length c = n) m ->
  Forall (fun c => length c = length m) (transpose n m).
Proof.
  induction 1 as [|c m Hc Hm IH]; simpl.
  - by apply Forall_replicate.
  - apply Forall_forall. intros r Hr.
    apply elem_of_zip_with in Hr as (a & t & -> & _ & Ht).
    rewrite Forall_forall in IH. simpl. by rewrite (IH t Ht).
Qed.

Lemma length_scan_steps {X S} (fn : X -> S -> S) xs s :
  length (scan_steps fn xs s) = length xs.
Proof.
  revert s. induction xs as [|x xs IH]; intros s; simpl; [done|].
  by rewrite IH.
Qed.

(** On a well-formed matrix with at least two columns the process returns,
    row by row, the fold of the specification. *)
Lemma stick_breaking_rows v n_batch n_dim :
  shape v = [n_batch; n_dim] -> wf v -> (2 <= n_dim)%nat ->
  Kumaraswamy._stick_breaking_process v
  = Ok (Tensor [n_batch; n_dim] (concat (map spec_stick_row (slices0 v)))).
Proof.
  intros Hs Hwf Hn. unfold Kumaraswamy._stick_breaking_process.
  rewrite Hs.
  pose proof (slices0_length v _ _ Hs) as Hlen.
  pose proof (slices0_widths v _ _ Hs Hwf) as Hw.
  simpl in Hw. rewrite Nat.mul_1_r in Hw.
  set (rows := slices0 v) in *.
  rewrite (removelast_transpose n_dim rows Hw).
  set (short := map (fun c => removelast c) rows).
  assert (Hshort : Forall (fun c => length c = (n_dim - 1)%nat) short).
  { subst short. apply Forall_fmap. eapply Forall_impl; [exact Hw|].
    intros c Hc. simpl in *. rewrite removelast_take, length_take. lia. }
  assert (Hshort_len : length short = n_batch).
  { subst short. by rewrite length_map. }
  pose proof (transpose_widths _ _ Hshort) as Hcols.
  rewrite Hshort_len in Hcols.
  pose proof (length_transpose_uniform _ _ Hshort) as Hcols_len.
  remember (transpose (n_dim - 1) short) as cs eqn:Hcs_def.
  pose proof (scan_rows n_batch cs Hcols (replicate n_batch 0%Q)
                (replicate n_batch 1%Q) (length_replicate _ _)) as Hscan.
  simpl in Hscan.
  pose proof (length_scan_steps (@Kumaraswamy.segment) cs
                (replicate n_batch 0%Q, replicate n_batch 1%Q)) as Hsteps.
  unfold theano_scan.
  destruct cs as [|c cs'] eqn:Hcs; [simpl in Hcols_len; lia|].
  rewrite <- Hcs in *. clear Hcs c cs'.
  set (outputs := scan_steps _ cs _) in *.
  cbn [rbind]. unfold py_last.
  destruct (last (map snd outputs)) as [fin|] eqn:Hlast.
  - cbn [rbind from_option] in *. unfold id in Hscan. rewrite Hscan.
    rewrite length_map, Hsteps, Hcols_len.
    replace (n_dim - 1 + 1)%nat with n_dim by lia.
    do 2 f_equal. rewrite Hcs_def. rewrite <- Hshort_len at 2.
    rewrite (transpose_involutive _ _ Hshort).
    rewrite zip_with_replicate_l by lia.
    subst short. rewrite <- list_fmap_compose. reflexivity.
  - apply last_None in Hlast. apply fmap_nil_inv in Hlast.
    rewrite Hlast in Hsteps. simpl in Hsteps. lia.
Qed.

Lemma stick_fold_sum v : forall rem,
  (Qsum (spec_stick_fold rem v).1 + (spec_stick_fold rem v).2 == rem)%Q.
Proof.
  induction v as [|vi v IH]; intros rem; simpl.
  - ring.
  - specialize (IH (rem * (1 - vi))%Q).
    destruct (spec_stick_fold _ v) as [segments final]. simpl in *.
    rewrite <- Qplus_assoc, IH. ring.
Qed.

Lemma Qsum_app l1 l2 : (Qsum (l1 ++ l2) == Qsum l1 + Qsum l2)%Q.
Proof.
  induction l1 as [|a l1 IH]; simpl; [ring|]. rewrite IH. ring.
Qed.

Lemma stick_row_sum row : (Qsum (spec_stick_row row) == 1)%Q.
Proof.
  unfold spec_stick_row, spec_close_row.
  pose proof (stick_fold_sum (removelast row) 1%Q) as H.
  destruct (spec_stick_fold _ _) as [segments final]. simpl in H.
  rewrite Qsum_app. simpl. rewrite Qplus_0_r. exact H.
Qed.

Lemma length_stick_fold v : forall rem,
  length (spec_stick_fold rem v).1 = length v.
Proof.
  induction v as [|vi v IH]; intros rem; simpl; [done|].
  specialize (IH (rem * (1 - vi))%Q).
  destruct (spec_stick_fold _ v). simpl in *. by rewrite IH.
Qed.

Lemma length_stick_row row :
  row <> [] -> length (spec_stick_row row) = length row.
Proof.
  intros Hrow. unfold spec_stick_row, spec_close_row.
  pose proof (length_stick_fold (removelast row) 1%Q) as H.
  destruct (spec_stick_fold _ _) as [segments final]. simpl in H.
  rewrite length_app, H, removelast_take, length_take. simpl.
  destruct row; [done|]. simpl. lia.
Qed.

End StickBreakingProcess.


Section Repetition.

Lemma T_repeat_batch t r b :
  batch_dim t = Some b -> 0 <= r ->
  exists t', T_repeat t r = Ok t'
             /\ shape t' = (b * Z.to_nat r)%nat :: tail (shape t).
Proof.
  intros Hb Hr. unfold T_repeat, batch_dim in *.
  destruct (shape t) as [|b' rest]; simplify_eq/=.
  rewrite bool_decide_eq_false_2 by lia. eauto.
Qed.

Lemma rmap_Forall2 {A B} (f : A -> result B) (R : A -> B -> Prop) l :
  Forall (fun a => exists b, f a = Ok b /\ R a b) l ->
  exists l', rmap f l = Ok l' /\ Forall2 R l l'.
Proof.
  induction 1 as [|a l (b & Hb & HR) _ (l' & Hl' & HR')]; simpl.
  - eauto.
  - rewrite Hb, Hl'. simpl. eauto.
Qed.

Lemma repeated_batch x r b :
  1 < r ->
  Forall (fun t => batch_dim t = Some b) x ->
  exists x', repeated x r = Ok x'
    /\ Forall2 (fun t t' => shape t' = (b * Z.to_nat r)%nat :: tail (shape t))
               x x'.
Proof.
  intros Hr Hx. unfold repeated. rewrite bool_decide_eq_true_2 by lia.
  apply rmap_Forall2. eapply Forall_impl; [exact Hx|].
  intros t Ht. simpl in Ht. apply T_repeat_batch; [done|lia].
Qed.

Lemma tolist_not_nil out : tolist out <> [].
Proof. by destruct out. Qed.

End Repetition.

Section RepeatedRows.

Lemma concat_repeated_rows r (rows : list (list Q)) :
  concat (map (fun row => concat (replicate r row)) rows)
  = concat (rows_repeated r rows).
Proof.
  unfold rows_repeated.
  induction rows as [|row rows IH]; simpl; [done|].
  by rewrite concat_app, IH.
Qed.

Lemma rows_repeated_widths w r (rows : list (list Q)) :
  Forall (fun row => length row = w) rows ->
  Forall (fun row => length row = w) (rows_repeated r rows)
  /\ length (rows_repeated r rows) = (length rows * r)%nat.
Proof.
  unfold rows_repeated.
  induction 1 as [|row rows Hrow _ [IH1 IH2]]; simpl; [by split|].
  split.
  - apply Forall_app. split; [by apply Forall_replicate|done].
  - rewrite length_app, length_replicate, IH2. lia.
Qed.

Lemma T_repeat_rows t r t' :
  wf t -> T_repeat t r = Ok t' ->
  wf t'
  /\ tail (shape t') = tail (shape t)
  /\ batch_dim t' = (fun b => (b * Z.to_nat r)%nat) <$> batch_dim t
  /\ slices0 t' = rows_repeated (Z.to_nat r) (slices0 t).
Proof.
  intros Hwf. unfold T_repeat, batch_dim.
  destruct (shape t) as [|b rest] eqn:Hshape; [discriminate|].
  destruct (bool_decide (r < 0)); [discriminate|].
  intros [= <-].
  pose proof (slices0_widths t b rest Hshape Hwf) as Hw.
  pose proof (slices0_length t b rest Hshape) as Hlen.
  destruct (rows_repeated_widths _ (Z.to_nat r) _ Hw) as [Hw' Hlen'].
  rewrite Hlen in Hlen'. rewrite concat_repeated_rows.
  split; [|split; [done|split; [done|]]].
  - unfold wf. simpl.
    rewrite (length_concat_uniform _ _ Hw'), Hlen'. lia.
  - rewrite <- Hlen'. by apply (slices0_concat (size_of rest)).
Qed.

Lemma rmap_Ok_Forall2 {A B} (f : A -> result B) l l' :
  rmap f l = Ok l' -> Forall2 (fun a b => f a = Ok b) l l'.
Proof.
  revert l'. induction l as [|a l IH]; intros l' H; simpl in H.
  - injection H as <-. constructor.
  - destruct (f a) as [b|e] eqn:Hb; cbn [rbind] in H; [|discriminate].
    destruct (rmap f l) as [bs|e]; cbn [rbind] in H; [|discriminate].
    injection H as <-. constructor; [done|]. by apply IH.
Qed.

End RepeatedRows.

Section Reshape.


Lemma reshape_infer t b w :
  0 < w ->
  size_of (shape t) = (b * Z.to_nat w)%nat ->
  reshape t [-1; w] = Ok (Tensor [b; Z.to_nat w] (data t)).
Proof.
  intros Hw Hsize. unfold reshape, known_dims.
  rewrite bool_decide_eq_false_2.
  2:{ rewrite Exists_cons, Exists_cons, Exists_nil. lia. }
  rewrite !filter_cons_True, !filter_cons_False, !filter_nil by lia.
  rewrite filter_cons_True, filter_nil by lia. simpl.
  rewrite Nat.mul_1_r, Hsize.
  rewrite bool_decide_eq_false_2 by lia.
  rewrite Nat.Div0.mod_mul, bool_decide_eq_true_2 by lia.
  rewrite (bool_decide_eq_false_2 (w = -1)) by lia.
  rewrite Nat.div_mul by lia. reflexivity.
Qed.

End Reshape.

Section Construction.
Context {rng : Type}.

(** When no graph construction raises, [_set_theano_func] assigns the entry
    points: the first three always, the log-likelihood when it is enabled. *)
Lemma set_theano_func_runs (cls : Methods rng) (self : Distribution.obj rng)
    (st : State rng) :
  (forall e r, exists r', m_symbolic cls e r = Ok r') ->
  exists st',
    Distribution._set_theano_func cls self st = (Ok tt, st')
    /\ is_Some (np_fprop (compiled st'))
    /\ is_Some (np_sample_mean_given_x (compiled st'))
    /\ np_sample_given_x (compiled st')
       = Some (theano_function (Distribution.inputs self)
                 (fun xs r =>
                    let! (samples, r') := m_sample_given_x cls xs 1 true r in
                    Ok (samples.2, r'))
                 (fun _ => Raise TypeError))
    /\ (Distribution.set_log_likelihood self = true ->
        is_Some (np_log_liklihood_given_x (compiled st'))).
Proof.
  intros Hsym. unfold Distribution._set_theano_func, cbind, on_stream,
    on_entries. cbn [stream compiled].
  destruct (Hsym FProp (stream st)) as [r1 ->].
  cbn [stream compiled].
  destruct (Hsym SampleMean r1) as [r2 ->]. cbn [stream compiled].
  destruct (Hsym Sample r2) as [r3 ->]. cbn [stream compiled].
  destruct (Distribution.set_log_likelihood self).
  - cbn [stream compiled]. destruct (Hsym LogLikelihood r3) as [r4 ->].
    eexists. split; [reflexivity|]. cbn. eauto 10.
  - eexists. split; [reflexivity|]. cbn.
    repeat split; eauto. discriminate.
Qed.

Lemma set_seed_runs (cls : Methods rng) (self : Distribution.obj rng)
    (seed : Z) (st : State rng) :
  (forall e r, exists r', m_symbolic cls e r = Ok r') ->
  exists st',
    Distribution.set_seed cls self seed st = (Ok tt, st')
    /\ (exists r, stream st'
                  = sampler_set_seed (Distribution.distribution self) seed r)
    /\ is_Some (np_fprop (compiled st'))
    /\ is_Some (np_sample_mean_given_x (compiled st'))
    /\ np_sample_given_x (compiled st')
       = Some (theano_function (Distribution.inputs self)
                 (fun xs r =>
                    let! (samples, r') := m_sample_given_x cls xs 1 true r in
                    Ok (samples.2, r'))
                 (fun _ => Raise TypeError))
    /\ (Distribution.set_log_likelihood self = true ->
        is_Some (np_log_liklihood_given_x (compiled st'))).
Proof.
  intros Hsym. unfold Distribution.set_seed, cbind.
  unfold on_stream at 1. cbn [stream compiled].
  destruct (set_theano_func_runs cls self
              (MkState (sampler_set_seed (Distribution.distribution self)
                          seed (stream st)) (compiled st)) Hsym)
    as (st1 & -> & H1 & H2 & H3 & H4).
  unfold on_stream. eexists. split; [reflexivity|].
  cbn [stream compiled]. eauto 10.
Qed.

Lemma sample_sequence_ext
    (f g : list tensor -> rng -> result (tensor * rng)) :
  (forall xs r, f xs r = g xs r) ->
  forall calls r, sample_sequence f calls r = sample_sequence g calls r.
Proof.
  intros Hfg calls. induction calls as [|xs calls IH]; intros r; simpl.
  - reflexivity.
  - rewrite Hfg. destruct (g xs r) as [[v r']|e]; cbn [rbind]; [|done].
    by rewrite IH.
Qed.

(** As written, the constructor of [Kumaraswamy] cannot complete: the graph
    of the log-likelihood is requested with a keyword argument that the
    override does not take. *)
Lemma kumaraswamy_init_raises (symbolic : entry -> rng -> result rng)
    (distribution : ElementarySampler rng) (a_network b_network : Network)
    (given : list Layer) (stick_breaking : bool) (seed : Z) (st : State rng) :
  (forall e r, exists r', symbolic e r = Ok r') ->
  (Kumaraswamy.__init__ symbolic distribution a_network b_network given
     stick_breaking seed st).1 = Raise TypeError.
Proof.
  intros Hsym.
  unfold Kumaraswamy.__init__, DistributionDouble.__init__,
    Distribution.__init__, Distribution.set_seed,
    Distribution._set_theano_func, cbind, on_stream, on_entries.
  cbn [stream compiled Kumaraswamy.methods m_symbolic
       Distribution.set_log_likelihood Distribution.distribution].
  destruct (Hsym FProp (sampler_set_seed distribution seed (stream st)))
    as [r1 ->]. cbn [stream compiled].
  destruct (Hsym SampleMean r1) as [r2 ->]. cbn [stream compiled].
  destruct (Hsym Sample r2) as [r3 ->]. reflexivity.
Qed.

End Construction.

(** ** De-duplication keeps the order of first occurrence *)

Section FirstSeen.
Context {A : Type} `{EqDecision A}.

#[global] Instance by_key_transitive (key : A -> nat) : Transitive (by_key key).
Proof. unfold by_key. intros x y z. lia. Qed.

#[global] Instance by_key_total (key : A -> nat) : Total (by_key key).
Proof. unfold by_key. intros x y. lia. Qed.

Lemma py_index_app_notin (pre l : list A) (y : A) :
  y ∉ pre -> py_index (pre ++ l) y = (length pre + py_index l y)%nat.
Proof.
  induction pre as [|b pre IH]; intros Hy; simpl; [done|].
  apply not_elem_of_cons in Hy as [Hne Hy].
  rewrite decide_False by done. by rewrite IH.
Qed.

Lemma py_index_inj (l : list A) (x y : A) :
  x ∈ l -> py_index l x = py_index l y -> x = y.
Proof.
  induction l as [|b l IH]; intros Hx Heq; [by apply elem_of_nil in Hx|].
  simpl in Heq.
  destruct (decide (x = b)) as [->|Hxb], (decide (y = b)) as [->|Hyb];
    try done.
  apply IH; [|lia]. by apply elem_of_cons in Hx as [?|?].
Qed.

Lemma elem_of_unique (seen l : list A) (x : A) :
  x ∈ unique seen l <-> x ∈ l /\ x ∉ seen.
Proof.
  revert seen. induction l as [|a l IH]; intros seen; simpl.
  - rewrite elem_of_nil. tauto.
  - destruct (bool_decide_reflect (a ∈ seen)) as [Ha|Ha].
    + rewrite IH, elem_of_cons. split; [tauto|].
      intros [[->|Hx] Hn]; tauto.
    + rewrite elem_of_cons, IH, !elem_of_cons.
      destruct (decide (x = a)) as [->|Hne].
      * split; [intros _; split; [by left|done]|intros _; by left].
      * split.
        -- intros [?|[Hx Hn]]; [done|]. split; [by right|].
           intros ?. apply Hn. by right.
        -- intros [[?|Hx] Hn]; [done|]. right. split; [done|].
           intros [?|?]; done.
Qed.

Lemma NoDup_unique (seen l : list A) : NoDup (unique seen l).
Proof.
  revert seen. induction l as [|a l IH]; intros seen; simpl.
  - constructor.
  - destruct (bool_decide_reflect (a ∈ seen)); [apply IH|].
    constructor; [|apply IH].
    rewrite elem_of_unique, not_elem_of_cons. tauto.
Qed.

Lemma unique_sorted (pre seen l : list A) :
  (forall x, x ∈ seen <-> x ∈ pre) ->
  StronglySorted (by_key (py_index (pre ++ l))) (unique seen l).
Proof.
  revert pre seen. induction l as [|a l IH]; intros pre seen Hseen; simpl.
  - constructor.
  - replace (pre ++ a :: l) with ((pre ++ [a]) ++ l)
      by (by rewrite <- app_assoc).
    destruct (bool_decide_reflect (a ∈ seen)) as [Ha|Ha].
    + apply IH. intros x. rewrite elem_of_app, list_elem_of_singleton.
      rewrite Hseen. split; [tauto|]. intros [?| ->]; [done|].
      by apply Hseen.
    + constructor.
      * apply IH. intros x.
        rewrite elem_of_cons, elem_of_app, list_elem_of_singleton, Hseen.
        tauto.
      * apply Forall_forall. intros y Hy.
        apply elem_of_unique in Hy as [Hy Hnew].
        apply not_elem_of_cons in Hnew as [Hne Hnew].
        rewrite <- app_assoc. simpl. unfold by_key.
        rewrite !py_index_app_notin by (rewrite <- Hseen; done).
        simpl. rewrite decide_True by done. rewrite decide_False by done.
        lia.
Qed.

End FirstSeen.

(** [sorted(set(params), key=params.index)] is [params] without
    duplicates, in the order of first occurrence, however the set is
    enumerated. *)
Lemma sorted_set_first_seen (params : list Param) :
  py_sorted (py_index params) (py_set params) = unique [] params.
Proof.
  unfold py_sorted, py_set.
  apply (StronglySorted_unique_strong (by_key (py_index params))).
  - intros x y Hx _ Hxy Hyx. unfold by_key in *.
    apply (py_index_inj params); [|lia].
    rewrite merge_sort_Permutation in Hx.
    by apply elem_of_elements, elem_of_list_to_set in Hx.
  - apply StronglySorted_merge_sort; apply _.
  - apply (unique_sorted [] [] params). done.
  - rewrite merge_sort_Permutation. apply NoDup_Permutation.
    + apply NoDup_elements.
    + apply NoDup_unique.
    + intros x. rewrite elem_of_elements, elem_of_list_to_set, elem_of_unique.
      rewrite elem_of_nil. tauto.
Qed.

Lemma double_get_params_first_seen {rng} (self : DistributionDouble.obj rng) :
  DistributionDouble.get_params self
  = unique [] (Distribution.get_params (DistributionDouble.base self)
               ++ layer_get_params
                    (net_layer (DistributionDouble.var_network self))).
Proof. apply sorted_set_first_seen. Qed.

(** * The claims *)

(** Whatever the number of inputs, [fprop] returns: the [except] clause is
    never entered. *)
Lemma fprop_returns {rng : Type} (self : Distribution.obj rng) (x : list tensor)
    (deterministic : bool) :
  Distribution.fprop self x deterministic
  = Ok (get_output (Distribution.mean_network self)
          (py_dict (zip (Distribution.given self) x)) deterministic).
Proof. reflexivity. Qed.

(** C1 (amended).  For every Kumaraswamy distribution with
    [stick_breaking] enabled and every raw draw [v] of the base class that
    is a well-formed matrix of shape (batch, n_dim) with n_dim at least 2,
    [sample_given_x] applies the stick-breaking transform: every output row
    is the strictly sequential left-to-right fold over the first n_dim - 1
    entries of the matching row of [v] (segment i = v i * remaining;
    remaining := remaining * (1 - v i)), closed by the final remaining mass
    as last column, and the shape is again (batch, n_dim).  In particular
    for n_dim = 3 and leading draws [[1/2, 1/2]] (any third entry) the
    result is [[1/2, 1/4, 1/4]], and for every [v] with entries in [0,1]
    each output row sums to 1 (in exact arithmetic: entries are
    rationals). *)
Theorem kumaraswamy_stick_breaking_fold {rng : Type}
    (self : Kumaraswamy.obj rng)
    (x : list tensor) (repeat : Z) (deterministic : bool) (s : rng)
    (x' : list tensor) (v : tensor) (s' : rng) (n_batch n_dim : nat) :
  Kumaraswamy.stick_breaking self = true ->
  Distribution.sample_given_x
    (DistributionDouble.fprop (Kumaraswamy.base self))
    (DistributionDouble.base (Kumaraswamy.base self))
    x repeat deterministic s = Ok ((x', v), s') ->
  shape v = [n_batch; n_dim] ->
  wf v ->
  (2 <= n_dim)%nat ->
  (exists w,
      Kumaraswamy.sample_given_x self x repeat deterministic s
      = Ok ((x', w), s')
      /\ shape w = [n_batch; n_dim]
      /\ slices0 w = map spec_stick_row (slices0 v)
      /\ (Forall in_unit (data v) ->
          Forall (fun row => Qsum row == 1)%Q (slices0 w)))
  /\ (forall c : Q,
        Kumaraswamy._stick_breaking_process
          (Tensor [1%nat; 3%nat] [1 # 2; 1 # 2; c]%Q)
        = Ok (Tensor [1%nat; 3%nat] [1 # 2; 1 # 4; 1 # 4]%Q)).
Proof.
  intros Hflag Hbase Hshape Hwf Hdim. split; [|intros c; reflexivity].
  unfold Kumaraswamy.sample_given_x. rewrite Hbase. cbn [rbind].
  rewrite Hflag, (stick_breaking_rows v n_batch n_dim Hshape Hwf Hdim).
  cbn [rbind]. eexists. split; [reflexivity|].
  pose proof (slices0_length v _ _ Hshape) as Hlen.
  pose proof (slices0_widths v _ _ Hshape Hwf) as Hw.
  simpl in Hw. rewrite Nat.mul_1_r in Hw.
  assert (Hrows : slices0 (Tensor [n_batch; n_dim]
                    (concat (map spec_stick_row (slices0 v))))
                  = map spec_stick_row (slices0 v)).
  { rewrite <- Hlen at 1.
    rewrite <- (length_map spec_stick_row (slices0 v)).
    apply (slices0_concat n_dim); [simpl; lia|].
    apply Forall_fmap. eapply Forall_impl; [exact Hw|].
    intros row Hrow. simpl in *. rewrite length_stick_row; [done|].
    intros ->. simpl in Hrow. lia. }
  split; [reflexivity|]. split; [exact Hrows|]. intros _.
  rewrite Hrows. apply Forall_fmap, Forall_forall. intros row _.
  apply stick_row_sum.
Qed.

Lemma kumaraswamy_stick_breaking_fold_witness :
  (exists w,
      Kumaraswamy.sample_given_x (Examples.kumaraswamy true)
        [Examples.half_half_third] 1 false 0
      = Ok (([Examples.half_half_third], w), 1)
      /\ shape w = [1%nat; 3%nat]
      /\ slices0 w = map spec_stick_row (slices0 Examples.half_half_third)
      /\ (Forall in_unit (data Examples.half_half_third) ->
          Forall (fun row => Qsum row == 1)%Q (slices0 w)))
  /\ (forall c : Q,
        Kumaraswamy._stick_breaking_process
          (Tensor [1%nat; 3%nat] [1 # 2; 1 # 2; c]%Q)
        = Ok (Tensor [1%nat; 3%nat] [1 # 2; 1 # 4; 1 # 4]%Q)).
Proof.
  apply (kumaraswamy_stick_breaking_fold (Examples.kumaraswamy true)
           [Examples.half_half_third] 1 false 0
           [Examples.half_half_third] Examples.half_half_third 1
           1%nat 3%nat).
  - reflexivity.
  - vm_compute. reflexivity.
  - reflexivity.
  - reflexivity.
  - lia.
Defined.

Lemma kumaraswamy_one_column_counterexample :
  let v := Tensor [1%nat; 1%nat] [1 # 2]%Q in
  Kumaraswamy.stick_breaking (Examples.kumaraswamy true) = true
  /\ Distribution.sample_given_x
       (DistributionDouble.fprop
          (Kumaraswamy.base (Examples.kumaraswamy true)))
       (DistributionDouble.base
          (Kumaraswamy.base (Examples.kumaraswamy true)))
       [v] 1 false 0
     = Ok (([v], v), 1)
  /\ shape v = [1%nat; 1%nat]
  /\ wf v
  /\ Forall in_unit (data v)
  /\ Kumaraswamy.sample_given_x (Examples.kumaraswamy true) [v] 1 false 0
     = Raise NotImplementedError
  /\ ~ (exists w s',
          Kumaraswamy.sample_given_x (Examples.kumaraswamy true) [v] 1
            false 0
          = Ok (([v], w), s')).
Proof.
  intros v.
  assert (H : Kumaraswamy.sample_given_x (Examples.kumaraswamy true) [v] 1
                false 0 = Raise NotImplementedError)
    by (vm_compute; reflexivity).
  split; [reflexivity|]. split; [vm_compute; reflexivity|].
  split; [reflexivity|]. split; [reflexivity|].
  split.
  { repeat constructor; unfold Qle; simpl; lia. }
  split; [exact H|]. intros (w & s' & Hs). rewrite H in Hs. discriminate Hs.
Qed.

(** A draw with a single column leaves the scan without a step: the
    process raises. *)
Example stick_breaking_one_column_raises :
  exists e,
    Kumaraswamy._stick_breaking_process
      (Tensor [2%nat; 1%nat] [1 # 2; 1 # 3]%Q) = Raise e.
Proof. eexists. reflexivity. Qed.

(** C2.  For r > 1 and a non-empty list of well-formed inputs that all
    have batch dimension b, [sample_given_x(x, repeat=r)] first repeats
    every input r times along the first axis (each row is written r times
    in a row, the other dimensions are kept), then runs the forward pass on
    the repeated inputs, draws from the resulting parameters and returns the
    repeated inputs with the draw: the returned inputs have batch dimension
    b * r, and so has the value, given a forward pass that hands the batch
    dimension of its inputs, whatever it is, on to the parameters and a
    sampler that draws one value per row of its parameters. *)
Theorem sample_given_x_repeat {rng : Type} (self : Distribution.obj rng)
    (self_fprop : list tensor -> bool -> result fprop_out)
    (x : list tensor) (r : Z) (deterministic : bool) (s : rng) (b : nat) :
  1 < r ->
  x <> [] ->
  Forall wf x ->
  Forall (fun t => batch_dim t = Some b) x ->
  (forall x0 n, x0 <> [] ->
     Forall (fun t => batch_dim t = Some n) x0 ->
     exists out, self_fprop x0 deterministic = Ok out
       /\ Forall (fun t => batch_dim t = Some n) (tolist out)) ->
  (forall parameters s0 n, parameters <> [] ->
     Forall (fun t => batch_dim t = Some n) parameters ->
     exists v s1,
       sampler_sample (Distribution.distribution self) parameters s0
       = Ok (v, s1)
       /\ batch_dim v = Some n) ->
  exists x' out v s',
    Forall2 (fun t t' =>
               wf t'
               /\ shape t' = (b * Z.to_nat r)%nat :: tail (shape t)
               /\ slices0 t' = rows_repeated (Z.to_nat r) (slices0 t))
            x x'
    /\ self_fprop x' deterministic = Ok out
    /\ sampler_sample (Distribution.distribution self) (tolist out) s
       = Ok (v, s')
    /\ Distribution.sample_given_x self_fprop self x r deterministic s
       = Ok ((x', v), s')
    /\ Forall (fun t' => batch_dim t' = Some (b * Z.to_nat r)%nat) x'
    /\ batch_dim v = Some (b * Z.to_nat r)%nat.
Proof.
  intros Hr Hne Hwf Hx Hfprop Hsampler.
  destruct (repeated_batch x r b Hr Hx) as (x' & Hx' & Hshapes).
  assert (Hbatch : Forall (fun t' => batch_dim t' = Some (b * Z.to_nat r)%nat)
                     x').
  { clear -Hshapes. induction Hshapes as [|t t' x x' Ht _ IH]; [done|].
    constructor; [|done]. unfold batch_dim. by rewrite Ht. }
  assert (Hne' : x' <> []).
  { intros ->. apply Forall2_nil_inv_r in Hshapes. done. }
  destruct (Hfprop x' _ Hne' Hbatch) as (out & Hout & Hparams).
  destruct (Hsampler (tolist out) s _ (tolist_not_nil out) Hparams)
    as (v & s' & Hv & Hvb).
  exists x', out, v, s'. repeat split; try done.
  - unfold repeated in Hx'. rewrite bool_decide_eq_true_2 in Hx' by lia.
    apply rmap_Ok_Forall2 in Hx'. clear -Hx' Hwf Hshapes.
    induction Hx' as [|t t' x x' Ht _ IH]; [constructor|].
    apply Forall_cons in Hwf as [Hwft Hwfx].
    apply Forall2_cons in Hshapes as [Hs Hshapes].
    constructor; [|by apply IH].
    destruct (T_repeat_rows t r t' Hwft Ht) as (Hwf' & _ & _ & Hrows).
    done.
  - unfold Distribution.sample_given_x. unfold repeated in Hx'.
    rewrite Hx'. cbn [rbind]. rewrite Hout. cbn [rbind].
    rewrite Hv. reflexivity.
Qed.

Lemma sample_given_x_repeat_witness :
  exists x' out v s',
    Forall2 (fun t t' =>
               wf t'
               /\ shape t' = (2 * Z.to_nat 3)%nat :: tail (shape t)
               /\ slices0 t' = rows_repeated (Z.to_nat 3) (slices0 t))
            [Examples.t22] x'
    /\ Examples.plain Examples.one_input x' false = Ok out
    /\ sampler_sample (Distribution.distribution Examples.one_input)
         (tolist out) 0
       = Ok (v, s')
    /\ Distribution.sample_given_x (Examples.plain Examples.one_input)
         Examples.one_input [Examples.t22] 3 false 0
       = Ok ((x', v), s')
    /\ Forall (fun t' => batch_dim t' = Some (2 * Z.to_nat 3)%nat) x'
    /\ batch_dim v = Some (2 * Z.to_nat 3)%nat.
Proof.
  apply (sample_given_x_repeat Examples.one_input
           (Examples.plain Examples.one_input) [Examples.t22] 3 false 0 2%nat).
  - lia.
  - discriminate.
  - repeat constructor.
  - repeat constructor.
  - intros [|t x0] n Hx0 Hall; [done|].
    apply Forall_cons in Hall as [Ht _].
    exists (One t). split; [|by repeat constructor].
    unfold Examples.plain. rewrite fprop_returns. reflexivity.
  - intros [|p parameters] s0 n Hp Hall; [done|].
    apply Forall_cons in Hall as [Hp' _].
    eexists _, _. split; [reflexivity|]. exact Hp'.
Defined.

(** C3 (evaluation).  A distribution conditioned on two inputs is given one
    input, none, or three: [fprop] returns a value each time, no exception is
    raised. *)
Theorem fprop_accepts_wrong_input_count :
  length (Distribution.given Examples.two_inputs) = 2%nat
  /\ Distribution.fprop Examples.two_inputs [Examples.t22] false
     = Ok Examples.t22
  /\ Distribution.fprop Examples.two_inputs [] false = Ok (Tensor [] [])
  /\ Distribution.fprop Examples.two_inputs
       [Examples.t22; Examples.half_half; Examples.t28] false
     = Ok Examples.t22.
Proof. repeat split; vm_compute; reflexivity. Qed.

(** C4 (amended).  Constructing a two-network distribution whose networks
    declare different output shapes raises [ValueError], provided building
    the graphs raises nothing before.  The shapes are compared after the base
    constructor has run: when the error is raised the sampler has been seeded,
    all four entry points (the sampling one among them) have been built, and
    the sampler has been seeded again, which is the state the stream is left
    in. *)
Theorem double_init_checks_shapes_last {rng : Type}
    (cls : DistributionDouble.obj rng -> Methods rng)
    (distribution : ElementarySampler rng) (mean_net var_net : Network)
    (given : list Layer) (seed : Z) (st : State rng) :
  lasagne_get_output_shape (net_layer mean_net)
  <> lasagne_get_output_shape (net_layer var_net) ->
  (forall self e r, exists r', m_symbolic (cls self) e r = Ok r') ->
  exists st',
    DistributionDouble.__init__ cls distribution mean_net var_net given seed st
    = (Raise ValueError, st')
    /\ is_Some (np_fprop (compiled st'))
    /\ is_Some (np_sample_mean_given_x (compiled st'))
    /\ is_Some (np_sample_given_x (compiled st'))
    /\ is_Some (np_log_liklihood_given_x (compiled st'))
    /\ exists r, stream st' = sampler_set_seed distribution seed r.
Proof.
  intros Hshapes Hsym.
  unfold DistributionDouble.__init__, Distribution.__init__, cbind.
  set (self := Distribution.MkObj _ _ _ _ _ _).
  destruct (set_seed_runs (cls (DistributionDouble.MkObj self var_net)) self
              seed st (Hsym _))
    as (st' & -> & Hstream & H1 & H2 & H3 & H4).
  unfold cret. cbn [DistributionDouble.base DistributionDouble.var_network].
  rewrite bool_decide_eq_true_2 by exact Hshapes.
  exists st'. split; [reflexivity|].
  rewrite H3. repeat split; eauto.
Qed.

Lemma double_init_checks_shapes_last_witness :
  exists st',
    DistributionDouble.__init__
      (DistributionDouble.methods Examples.fast_graphs)
      Examples.shift_sampler Examples.wide Examples.narrow [Examples.in0] 1
      Examples.used
    = (Raise ValueError, st')
    /\ is_Some (np_fprop (compiled st'))
    /\ is_Some (np_sample_mean_given_x (compiled st'))
    /\ is_Some (np_sample_given_x (compiled st'))
    /\ is_Some (np_log_liklihood_given_x (compiled st'))
    /\ exists r, stream st' = sampler_set_seed Examples.shift_sampler 1 r.
Proof.
  apply (double_init_checks_shapes_last
           (DistributionDouble.methods Examples.fast_graphs)
           Examples.shift_sampler Examples.wide Examples.narrow
           [Examples.in0] 1 Examples.used).
  - discriminate.
  - intros self e r. eexists. reflexivity.
Defined.

Lemma double_init_builds_sampling_counterexample :
  (DistributionDouble.__init__
     (DistributionDouble.methods Examples.fast_graphs)
     Examples.shift_sampler Examples.wide Examples.narrow [Examples.in0] 1
     Examples.fresh).1 = Raise ValueError
  /\ ~ (np_sample_given_x
          (compiled
             (DistributionDouble.__init__
                (DistributionDouble.methods Examples.fast_graphs)
                Examples.shift_sampler Examples.wide Examples.narrow
                [Examples.in0] 1 Examples.fresh).2) = None).
Proof.
  split; [vm_compute; reflexivity|]. vm_compute. discriminate.
Qed.




(** C6.  Two structurally identical distributions (same sampler, as many
    inputs, same sampling method) run the seeding protocol with the same
    seed, from any two states of the stream and with any two ways graph
    construction may use the stream.  Both end with the stream in the same
    state, the seeded one, and with sampling entry points that return the
    same values on every sequence of calls, given that seeding the sampler
    resets its stream. *)
Theorem two_phase_seeding_reproducible {rng : Type} (cls1 cls2 : Methods rng)
    (self1 self2 : Distribution.obj rng) (seed : Z) (st1 st2 : State rng) :
  Distribution.distribution self1 = Distribution.distribution self2 ->
  length (Distribution.inputs self1) = length (Distribution.inputs self2) ->
  (forall r r',
      sampler_set_seed (Distribution.distribution self1) seed r
      = sampler_set_seed (Distribution.distribution self1) seed r') ->
  (forall e r, exists r', m_symbolic cls1 e r = Ok r') ->
  (forall e r, exists r', m_symbolic cls2 e r = Ok r') ->
  (forall xs r,
      m_sample_given_x cls1 xs 1 true r = m_sample_given_x cls2 xs 1 true r) ->
  exists st1' st2',
    Distribution.set_seed cls1 self1 seed st1 = (Ok tt, st1')
    /\ Distribution.set_seed cls2 self2 seed st2 = (Ok tt, st2')
    /\ stream st1' = stream st2'
    /\ (forall r, stream st1'
                  = sampler_set_seed (Distribution.distribution self1) seed r)
    /\ forall calls, draws st1' calls = draws st2' calls.
Proof.
  intros Hsampler Harity Hreset Hsym1 Hsym2 Hsame.
  destruct (set_seed_runs cls1 self1 seed st1 Hsym1)
    as (st1' & Hrun1 & (r1 & Hr1) & _ & _ & Hentry1 & _).
  destruct (set_seed_runs cls2 self2 seed st2 Hsym2)
    as (st2' & Hrun2 & (r2 & Hr2) & _ & _ & Hentry2 & _).
  rewrite <- Hsampler in Hr2.
  exists st1', st2'. split; [done|]. split; [done|].
  assert (Hstreams : stream st1' = stream st2').
  { rewrite Hr1, Hr2. apply Hreset. }
  split; [done|]. split.
  - intros r. rewrite Hr1. apply Hreset.
  - intros calls. unfold draws. rewrite Hentry1, Hentry2, Hstreams.
    apply sample_sequence_ext. intros xs r. unfold theano_function.
    rewrite Harity. destruct (bool_decide _); [|done]. by rewrite Hsame.
Qed.

Lemma two_phase_seeding_reproducible_witness :
  exists st1' st2',
    Distribution.set_seed
      (Distribution.methods Examples.slow_graphs Examples.one_input)
      Examples.one_input 3 Examples.fresh = (Ok tt, st1')
    /\ Distribution.set_seed
         (Distribution.methods Examples.fast_graphs Examples.one_input)
         Examples.one_input 3 Examples.used = (Ok tt, st2')
    /\ stream st1' = stream st2'
    /\ (forall r, stream st1'
                  = sampler_set_seed
                      (Distribution.distribution Examples.one_input) 3 r)
    /\ forall calls, draws st1' calls = draws st2' calls.
Proof.
  apply (two_phase_seeding_reproducible
           (Distribution.methods Examples.slow_graphs Examples.one_input)
           (Distribution.methods Examples.fast_graphs Examples.one_input)
           Examples.one_input Examples.one_input 3
           Examples.fresh Examples.used).
  - reflexivity.
  - reflexivity.
  - reflexivity.
  - intros e r. eexists. reflexivity.
  - intros e r. eexists. reflexivity.
  - reflexivity.
Defined.

(** After construction from a fresh stream with costly graphs and from a used
    stream with cheap ones, two draws on the same inputs agree: the first
    is shifted by the seed, the second by the seed plus one. *)
Example seeded_draws :
  draws (Distribution.set_seed
           (Distribution.methods Examples.slow_graphs Examples.one_input)
           Examples.one_input 3 Examples.fresh).2
        [[Examples.t22]; [Examples.t22]]
  = Ok [Tensor [2%nat; 2%nat] [1 + 3; 2 + 3; 3 + 3; 4 + 3]%Q;
        Tensor [2%nat; 2%nat] [1 + 4; 2 + 4; 3 + 4; 4 + 4]%Q]
  /\ draws (Distribution.set_seed
              (Distribution.methods Examples.fast_graphs Examples.one_input)
              Examples.one_input 3 Examples.used).2
           [[Examples.t22]; [Examples.t22]]
     = Ok [Tensor [2%nat; 2%nat] [1 + 3; 2 + 3; 3 + 3; 4 + 3]%Q;
           Tensor [2%nat; 2%nat] [1 + 4; 2 + 4; 3 + 4; 4 + 4]%Q].
Proof. split; reflexivity. Qed.




(** C8 (amended).  A Categorical distribution built by its constructor has
    K equal to the last entry of the declared output shape of its predictor.
    When the predictor output holds batch * n_dim * K entries, whatever its
    shape (as (batch, n_dim, K), or (4, 3) for n_dim = 2, K = 3 and
    batch = 2), [fprop] returns it reshaped to (batch, n_dim * K), and
    [sample_given_x] returns the draw reshaped to (batch, n_dim * K) as
    well, given that the sampler returns as many entries as it was given. *)
Theorem categorical_flatten {rng : Type}
    (symbolic : entry -> rng -> result rng)
    (distribution : ElementarySampler rng) (mean_network : Network)
    (given : list Layer) (n_dim seed : Z) (st : State rng)
    (self : Categorical.obj rng)
    (x : list tensor) (repeat : Z) (deterministic : bool) (s : rng)
    (x' : list tensor) (K batch : nat) (mean v : tensor) (s' : rng) :
  (Categorical.__init__ symbolic distribution mean_network given n_dim seed
     st).1 = Ok self ->
  last (lasagne_get_output_shape (net_layer mean_network)) = Some (Some K) ->
  0 < n_dim * Z.of_nat K ->
  repeated x repeat = Ok x' ->
  Distribution.fprop (Categorical.base self) x' deterministic = Ok mean ->
  size_of (shape mean) = (batch * Z.to_nat (n_dim * Z.of_nat K))%nat ->
  sampler_sample (Distribution.distribution (Categorical.base self)) [mean] s
  = Ok (v, s') ->
  size_of (shape v) = size_of (shape mean) ->
  Categorical.k self = Some K
  /\ Categorical.n_dim self = n_dim
  /\ Categorical.fprop self x' deterministic
     = Ok (Tensor [batch; Z.to_nat (n_dim * Z.of_nat K)] (data mean))
  /\ Categorical.sample_given_x self x repeat deterministic s
     = Ok ((x', Tensor [batch; Z.to_nat (n_dim * Z.of_nat K)] (data v)), s').
Proof.
  intros Hinit Hlast Hpos Hx' Hmean Htotal Hsample Hsize.
  assert (Hself : Categorical.k self = Some K
                  /\ Categorical.n_dim self = n_dim).
  { unfold Categorical.__init__, py_last in Hinit. rewrite Hlast in Hinit.
    unfold cbind in Hinit.
    destruct (Distribution.__init__ _ _ _ _ _ _ st) as [[b|e] st1];
      simpl in Hinit; [|discriminate].
    by injection Hinit as <-. }
  destruct Hself as [Hk Hn]. split; [done|]. split; [done|].
  assert (Hwidth : Categorical.n_dim_times_k self = Ok (n_dim * Z.of_nat K)).
  { unfold Categorical.n_dim_times_k. by rewrite Hk, Hn. }
  split.
  - unfold Categorical.fprop. rewrite Hmean, Hwidth. cbn [rbind].
    by rewrite (reshape_infer mean batch _ Hpos Htotal).
  - unfold Categorical.sample_given_x. unfold repeated in Hx'.
    rewrite Hx'. cbn [rbind]. rewrite Hmean. cbn [rbind].
    rewrite Hsample, Hwidth. cbn [rbind].
    rewrite (reshape_infer v batch _ Hpos); [done|]. by rewrite Hsize.
Qed.

Lemma categorical_flatten_witness :
  Categorical.k Examples.categorical = Some 3%nat
  /\ Categorical.n_dim Examples.categorical = 2
  /\ Categorical.fprop Examples.categorical [Examples.t123] false
     = Ok (Tensor [1%nat; 6%nat] (replicate 6 1%Q))
  /\ Categorical.sample_given_x Examples.categorical [Examples.t123] 1 false 0
     = Ok (([Examples.t123],
            Tensor [1%nat; 6%nat] (replicate 6 (1 + 0)%Q)), 1).
Proof.
  apply (categorical_flatten Examples.fast_graphs Examples.shift_sampler
           Examples.two_by_three [Examples.in0] 2 1 Examples.fresh
           Examples.categorical [Examples.t123] 1 false 0 [Examples.t123]
           3%nat 1%nat Examples.t123
           (Tensor [1%nat; 2%nat; 3%nat] (replicate 6 (1 + 0)%Q)) 1).
  - vm_compute. reflexivity.
  - reflexivity.
  - lia.
  - reflexivity.
  - vm_compute. reflexivity.
  - reflexivity.
  - reflexivity.
  - reflexivity.
Defined.

Lemma categorical_flat_declared_shape_counterexample :
  exists self,
    (Categorical.__init__ Examples.fast_graphs Examples.shift_sampler
       Examples.flat6 [Examples.in0] 2 1 Examples.fresh).1 = Ok self
    /\ Categorical.k self = Some 6%nat
    /\ Categorical.fprop self [Examples.t16] false = Raise ValueError
    /\ Categorical.sample_given_x self [Examples.t16] 1 false 0
       = Raise ValueError
    /\ Categorical.fprop self [Examples.t26] false
       = Ok (Tensor [1%nat; 12%nat] (replicate 12 1%Q)).
Proof.
  eexists. split; [vm_compute; reflexivity|].
  repeat split; vm_compute; reflexivity.
Qed.

(** C9 (evaluation).  The variance network has a hidden layer of its own
    (parameters 3 and 4) below its output layer (parameters 5 and 6); the
    mean network owns parameters 1 and 2.  [get_params] returns the
    parameters of the mean network and of the output layer of the variance
    network only: parameters 3 and 4, trainable parameters of the variance
    predictor, are missing. *)
Theorem get_params_misses_hidden_variance_parameters :
  DistributionDouble.get_params Examples.gaussian_like
  = [Examples.W 1; Examples.W 2; Examples.W 5; Examples.W 6]
  /\ get_all_params
       (net_layer (DistributionDouble.var_network Examples.gaussian_like))
     = [Examples.W 3; Examples.W 4; Examples.W 5; Examples.W 6]
  /\ Examples.W 3 ∉ DistributionDouble.get_params Examples.gaussian_like.
Proof.
  assert (H : DistributionDouble.get_params Examples.gaussian_like
              = [Examples.W 1; Examples.W 2; Examples.W 5; Examples.W 6])
    by (vm_compute; reflexivity).
  split; [exact H|]. split; [vm_compute; reflexivity|].
  rewrite H. intros Hin. repeat (apply elem_of_cons in Hin as [Hin|Hin];
    [discriminate Hin|]). by apply elem_of_nil in Hin.
Qed.

(** C10.  With [stick_breaking] off, [sample_given_x] of a Kumaraswamy
    distribution returns exactly what the sampling path of the base class
    returns: the inputs and the raw draw, untransformed. *)
Theorem kumaraswamy_without_stick_breaking {rng : Type}
    (self : Kumaraswamy.obj rng)
    (x : list tensor) (repeat : Z) (deterministic : bool) (s : rng) :
  Kumaraswamy.stick_breaking self = false ->
  Kumaraswamy.sample_given_x self x repeat deterministic s
  = Distribution.sample_given_x
      (DistributionDouble.fprop (Kumaraswamy.base self))
      (DistributionDouble.base (Kumaraswamy.base self))
      x repeat deterministic s.
Proof.
  intros Hflag. unfold Kumaraswamy.sample_given_x.
  destruct (Distribution.sample_given_x _ _ x repeat deterministic s)
    as [[[x' v] s']|e]; cbn [rbind]; [|reflexivity].
  by rewrite Hflag.
Qed.

Lemma kumaraswamy_without_stick_breaking_witness :
  Kumaraswamy.sample_given_x (Examples.kumaraswamy false)
    [Examples.half_half] 1 false 0
  = Distribution.sample_given_x
      (DistributionDouble.fprop (Kumaraswamy.base (Examples.kumaraswamy false)))
      (DistributionDouble.base (Kumaraswamy.base (Examples.kumaraswamy false)))
      [Examples.half_half] 1 false 0.
Proof.
  apply (kumaraswamy_without_stick_breaking (Examples.kumaraswamy false)
           [Examples.half_half] 1 false 0).
  reflexivity.
Defined.


(** * Further properties *)

(** ** Parameter collection *)

Section UniqueLists.
Context {A : Type} `{EqDecision A}.

Lemma unique_seen_ext (s1 s2 l : list A) :
  (forall x, x ∈ s1 <-> x ∈ s2) -> unique s1 l = unique s2 l.
Proof.
  revert s1 s2. induction l as [|a l IH]; intros s1 s2 Hs; simpl; [done|].
  destruct (bool_decide_reflect (a ∈ s1)) as [H1|H1],
           (bool_decide_reflect (a ∈ s2)) as [H2|H2];
    try (exfalso; rewrite Hs in H1; tauto).
  - by apply IH.
  - f_equal. apply IH. intros x. rewrite !elem_of_cons, Hs. tauto.
Qed.

Lemma unique_app (seen a b : list A) :
  unique seen (a ++ b) = unique seen a ++ unique (a ++ seen) b.
Proof.
  revert seen. induction a as [|c a IH]; intros seen; simpl; [done|].
  destruct (bool_decide_reflect (c ∈ seen)) as [Hc|Hc].
  - rewrite IH. f_equal. apply unique_seen_ext. intros x.
    rewrite elem_of_cons, !elem_of_app. split; [tauto|].
    intros [->|?]; tauto.
  - simpl. f_equal. rewrite IH. f_equal. apply unique_seen_ext.
    intros x. rewrite !elem_of_cons, !elem_of_app, elem_of_cons. tauto.
Qed.

Lemma unique_NoDup_id (seen l : list A) :
  NoDup l -> (forall x, x ∈ l -> x ∉ seen) -> unique seen l = l.
Proof.
  intros Hl. revert seen. induction Hl as [|a l Ha Hl IH]; intros seen Hs;
    simpl; [done|].
  rewrite bool_decide_eq_false_2 by (apply Hs; by left).
  f_equal. apply IH. intros x Hx. rewrite not_elem_of_cons. split.
  - intros ->. done.
  - apply Hs. by right.
Qed.

End UniqueLists.

Lemma collect_params_trainable (l : Layer) :
  Forall (fun p => trainable p = true) (collect_params l).
Proof.
  revert l. fix IH 1. intros [i sh ps ins]. simpl.
  apply Forall_app. split.
  - induction ins as [|l' rest IHrest]; [constructor|].
    apply Forall_app. split; [apply IH|exact IHrest].
  - apply Forall_forall. intros p Hp.
    by apply list_elem_of_filter in Hp as [? _].
Qed.

Lemma double_get_params_elem {rng : Type}
    (self : DistributionDouble.obj rng) (p : Param) :
  p ∈ DistributionDouble.get_params self
  <-> p ∈ Distribution.get_params (DistributionDouble.base self)
      \/ p ∈ layer_get_params
               (net_layer (DistributionDouble.var_network self)).
Proof.
  rewrite double_get_params_first_seen.
  rewrite elem_of_unique, elem_of_app, elem_of_nil. tauto.
Qed.

(** X1.  [get_params] of a two-network distribution is the parameter list of
    the base class, unchanged, followed by those trainable parameters of the
    output layer of the variance network that the list does not hold yet, in
    their order and once each: the result has no duplicate and holds exactly
    the parameters of the two sources. *)
Theorem double_get_params_appends {rng : Type}
    (self : DistributionDouble.obj rng) :
  DistributionDouble.get_params self
  = Distribution.get_params (DistributionDouble.base self)
    ++ unique (Distribution.get_params (DistributionDouble.base self))
         (layer_get_params (net_layer (DistributionDouble.var_network self)))
  /\ NoDup (DistributionDouble.get_params self)
  /\ forall p,
       p ∈ DistributionDouble.get_params self
       <-> p ∈ Distribution.get_params (DistributionDouble.base self)
           \/ p ∈ layer_get_params
                    (net_layer (DistributionDouble.var_network self)).
Proof.
  rewrite double_get_params_first_seen.
  set (m := Distribution.get_params (DistributionDouble.base self)).
  set (v := layer_get_params _).
  assert (Hm : unique [] m = m).
  { apply unique_NoDup_id; [apply NoDup_unique|].
    intros x _. apply not_elem_of_nil. }
  split; [|split].
  - rewrite unique_app, Hm. f_equal. apply unique_seen_ext.
    intros x. rewrite elem_of_app, elem_of_nil. tauto.
  - apply NoDup_unique.
  - intros p. fold m. rewrite elem_of_unique, elem_of_app, elem_of_nil.
    tauto.
Qed.

(** X2.  Neither [get_params] returns a parameter that is not tagged
    trainable. *)
Theorem get_params_only_trainable {rng : Type}
    (self : DistributionDouble.obj rng) :
  Forall (fun p => trainable p = true)
         (Distribution.get_params (DistributionDouble.base self))
  /\ Forall (fun p => trainable p = true)
            (DistributionDouble.get_params self).
Proof.
  assert (Hmean : Forall (fun p => trainable p = true)
                    (Distribution.get_params (DistributionDouble.base self))).
  { unfold Distribution.get_params, get_all_params.
    apply Forall_forall. intros p Hp. apply elem_of_unique in Hp as [Hp _].
    pose proof (collect_params_trainable
                  (net_layer (Distribution.mean_network
                                (DistributionDouble.base self)))) as H.
    rewrite Forall_forall in H. by apply H. }
  split; [exact Hmean|].
  apply Forall_forall. intros p Hp.
  apply double_get_params_elem in Hp as [Hp|Hp].
  - rewrite Forall_forall in Hmean. by apply Hmean.
  - unfold layer_get_params in Hp. destruct (net_layer _) as [i sh ps ins].
    by apply list_elem_of_filter in Hp as [? _].
Qed.


(** ** Sampling, mean and log-likelihood *)

Lemma sample_given_x_returns_repeated {rng : Type}
    (self_fprop : list tensor -> bool -> result fprop_out)
    (self : Distribution.obj rng) (x : list tensor) (repeat : Z)
    (deterministic : bool) (s : rng) (x' : list tensor) (v : tensor)
    (s' : rng) :
  Distribution.sample_given_x self_fprop self x repeat deterministic s
  = Ok ((x', v), s') ->
  repeated x repeat = Ok x'.
Proof.
  unfold Distribution.sample_given_x, repeated. intros H.
  destruct (if bool_decide (repeat <> 1) then _ else _) as [x0|e];
    cbn [rbind] in H; [|discriminate].
  destruct (self_fprop x0 deterministic) as [out|e];
    cbn [rbind] in H; [|discriminate].
  destruct (sampler_sample _ (tolist out) s) as [[v0 s0]|e];
    cbn [rbind] in H; [|discriminate].
  by injection H as -> _ _.
Qed.

(** X4.  With the stochastic regularisation of the networks switched off
    ([deterministic=True]), the record [sample_given_x] returns suits
    [log_likelihood_given_x]: the log-likelihood of the record is the
    sampler's log-likelihood of the drawn value under the very parameters it
    was drawn from, those of the forward pass on the returned (possibly
    repeated) inputs. *)
Theorem log_likelihood_of_sample_record {rng : Type}
    (self_fprop : list tensor -> bool -> result fprop_out)
    (self : Distribution.obj rng) (x : list tensor) (repeat : Z)
    (s : rng) (x' : list tensor) (v : tensor) (s' : rng) :
  Distribution.sample_given_x self_fprop self x repeat true s
  = Ok ((x', v), s') ->
  exists out,
    repeated x repeat = Ok x'
    /\ self_fprop x' true = Ok out
    /\ sampler_sample (Distribution.distribution self) (tolist out) s
       = Ok (v, s')
    /\ Distribution.log_likelihood_given_x self_fprop self (x', v) true
       = sampler_log_likelihood (Distribution.distribution self) v
           (tolist out).
Proof.
  unfold Distribution.sample_given_x, repeated. intros H.
  destruct (if bool_decide (repeat <> 1) then _ else _) as [x0|e];
    cbn [rbind] in H; [|discriminate].
  destruct (self_fprop x0 true) as [out|e] eqn:Hout;
    cbn [rbind] in H; [|discriminate].
  destruct (sampler_sample _ (tolist out) s) as [[v0 s0]|e] eqn:Hv;
    cbn [rbind] in H; [|discriminate].
  injection H as -> -> ->.
  exists out. repeat split; try done.
  unfold Distribution.log_likelihood_given_x. by rewrite Hout.
Qed.

Lemma log_likelihood_of_sample_record_witness :
  exists out,
    repeated [Examples.t22] 2 = Ok [Tensor [4%nat; 2%nat]
                                      [1; 2; 1; 2; 3; 4; 3; 4]%Q]
    /\ Examples.plain Examples.one_input
         [Tensor [4%nat; 2%nat] [1; 2; 1; 2; 3; 4; 3; 4]%Q] true = Ok out
    /\ sampler_sample (Distribution.distribution Examples.one_input)
         (tolist out) 0
       = Ok (Tensor [4%nat; 2%nat]
               [1 + 0; 2 + 0; 1 + 0; 2 + 0; 3 + 0; 4 + 0; 3 + 0; 4 + 0]%Q, 1)
    /\ Distribution.log_likelihood_given_x
         (Examples.plain Examples.one_input) Examples.one_input
         ([Tensor [4%nat; 2%nat] [1; 2; 1; 2; 3; 4; 3; 4]%Q],
          Tensor [4%nat; 2%nat]
            [1 + 0; 2 + 0; 1 + 0; 2 + 0; 3 + 0; 4 + 0; 3 + 0; 4 + 0]%Q)
         true
       = sampler_log_likelihood
           (Distribution.distribution Examples.one_input)
           (Tensor [4%nat; 2%nat]
              [1 + 0; 2 + 0; 1 + 0; 2 + 0; 3 + 0; 4 + 0; 3 + 0; 4 + 0]%Q)
           (tolist out).
Proof.
  apply (log_likelihood_of_sample_record
           (Examples.plain Examples.one_input) Examples.one_input
           [Examples.t22] 2 0).
  vm_compute. reflexivity.
Defined.

(** ** Construction and the compiled entry points *)

(** X5.  After the seeding protocol of a distribution with a log-likelihood,
    the four entry points exist.  Called with one array per conditioning
    input, they run the methods of the class in deterministic mode: the
    forward pass, the value of the mean sample, the value of a sample drawn
    without repetition, and, with the sample as one more last argument, the
    log-likelihood. *)
Theorem entry_points_run_deterministic {rng : Type} (cls : Methods rng)
    (self : Distribution.obj rng) (seed : Z) (st : State rng) :
  (forall e r, exists r', m_symbolic cls e r = Ok r') ->
  Distribution.set_log_likelihood self = true ->
  exists st' f g h l,
    Distribution.set_seed cls self seed st = (Ok tt, st')
    /\ compiled st' = MkEntryPoints (Some f) (Some g) (Some h) (Some l)
    /\ forall xs,
         length xs = length (Distribution.inputs self) ->
         f xs = m_fprop cls xs true
         /\ g xs = (let! samples := m_sample_mean_given_x cls xs true in
                    Ok samples.2)
         /\ (forall r,
               h xs r = (let! (samples, r') :=
                           m_sample_given_x cls xs 1 true r in
                         Ok (samples.2, r')))
         /\ forall sample,
              l (xs ++ [sample])
              = m_log_likelihood_given_x cls (xs, sample) true.
Proof.
  intros Hsym Hflag.
  unfold Distribution.set_seed, Distribution._set_theano_func, cbind,
    on_stream, on_entries. cbn [stream compiled]. rewrite Hflag.
  destruct (Hsym FProp
              (sampler_set_seed (Distribution.distribution self) seed
                 (stream st))) as [r1 ->]. cbn [stream compiled].
  destruct (Hsym SampleMean r1) as [r2 ->]. cbn [stream compiled].
  destruct (Hsym Sample r2) as [r3 ->]. cbn [stream compiled].
  destruct (Hsym LogLikelihood r3) as [r4 ->]. cbn [stream compiled].
  eexists _, _, _, _, _. split; [reflexivity|]. split; [reflexivity|].
  intros xs Hxs. unfold theano_function.
  rewrite !bool_decide_eq_true_2 by done.
  repeat split. intros sample.
  rewrite bool_decide_eq_true_2 by (rewrite !length_app; simpl; lia).
  rewrite last_snoc. rewrite <- Hxs. by rewrite take_app_length.
Qed.

Lemma entry_points_run_deterministic_witness :
  exists st' f g h l,
    Distribution.set_seed
      (Distribution.methods Examples.fast_graphs Examples.one_input)
      Examples.one_input 3 Examples.fresh = (Ok tt, st')
    /\ compiled st' = MkEntryPoints (Some f) (Some g) (Some h) (Some l)
    /\ forall xs,
         length xs = length (Distribution.inputs Examples.one_input) ->
         f xs = m_fprop
                  (Distribution.methods Examples.fast_graphs
                     Examples.one_input) xs true
         /\ g xs = (let! samples :=
                      m_sample_mean_given_x
                        (Distribution.methods Examples.fast_graphs
                           Examples.one_input) xs true in
                    Ok samples.2)
         /\ (forall r,
               h xs r = (let! (samples, r') :=
                           m_sample_given_x
                             (Distribution.methods Examples.fast_graphs
                                Examples.one_input) xs 1 true r in
                         Ok (samples.2, r')))
         /\ forall sample,
              l (xs ++ [sample])
              = m_log_likelihood_given_x
                  (Distribution.methods Examples.fast_graphs
                     Examples.one_input) (xs, sample) true.
Proof.
  apply (entry_points_run_deterministic
           (Distribution.methods Examples.fast_graphs Examples.one_input)
           Examples.one_input 3 Examples.fresh).
  - intros e r. eexists. reflexivity.
  - reflexivity.
Defined.

(** X6.  Constructing a Deterministic distribution never asks for the graph
    of the log-likelihood: it succeeds even where building that graph would
    raise, assigns the three other entry points and leaves the
    log-likelihood entry point as it was. *)
Theorem deterministic_init_skips_log_likelihood {rng : Type}
    (symbolic : entry -> rng -> result rng) (reseed : Z -> rng -> rng)
    (network : Network) (given : list Layer) (seed : Z) (st : State rng) :
  (forall e r, e <> LogLikelihood -> exists r', symbolic e r = Ok r') ->
  exists self st',
    Deterministic.__init__ symbolic reseed network given seed st
    = (Ok self, st')
    /\ Distribution.distribution self
       = Deterministic.DeterministicSample reseed
    /\ Distribution.mean_network self = network
    /\ Distribution.given self = given
    /\ Distribution.set_log_likelihood self = false
    /\ is_Some (np_fprop (compiled st'))
    /\ is_Some (np_sample_mean_given_x (compiled st'))
    /\ is_Some (np_sample_given_x (compiled st'))
    /\ np_log_liklihood_given_x (compiled st')
       = np_log_liklihood_given_x (compiled st)
    /\ exists r, stream st' = reseed seed r.
Proof.
  intros Hsym.
  unfold Deterministic.__init__, Distribution.__init__,
    Distribution.set_seed, Distribution._set_theano_func, cbind, on_stream,
    on_entries, cret.
  cbn [stream compiled Distribution.methods m_symbolic
       Distribution.set_log_likelihood Distribution.distribution
       sampler_set_seed Deterministic.DeterministicSample].
  destruct (Hsym FProp (reseed seed (stream st))) as [r1 ->]; [done|].
  cbn [stream compiled].
  destruct (Hsym SampleMean r1) as [r2 ->]; [done|]. cbn [stream compiled].
  destruct (Hsym Sample r2) as [r3 ->]; [done|]. cbn [stream compiled].
  eexists _, _. split; [reflexivity|]. cbn. eauto 20.
Qed.

Lemma deterministic_init_skips_log_likelihood_witness :
  exists self st',
    Deterministic.__init__ Instances.no_likelihood_graph (fun seed _ => seed)
      (Examples.pass 0 [None; Some 2%nat]) [Examples.in0] 5 Examples.fresh
    = (Ok self, st')
    /\ Distribution.distribution self
       = Deterministic.DeterministicSample (fun seed _ => seed)
    /\ Distribution.mean_network self = Examples.pass 0 [None; Some 2%nat]
    /\ Distribution.given self = [Examples.in0]
    /\ Distribution.set_log_likelihood self = false
    /\ is_Some (np_fprop (compiled st'))
    /\ is_Some (np_sample_mean_given_x (compiled st'))
    /\ is_Some (np_sample_given_x (compiled st'))
    /\ np_log_liklihood_given_x (compiled st')
       = np_log_liklihood_given_x (compiled Examples.fresh)
    /\ exists r : Z, stream st' = 5.
Proof.
  apply (deterministic_init_skips_log_likelihood
           Instances.no_likelihood_graph (fun seed _ => seed)
           (Examples.pass 0 [None; Some 2%nat]) [Examples.in0] 5
           Examples.fresh).
  intros [] r Hne; try (eexists; reflexivity). done.
Defined.

(** X7.  Constructing a Kumaraswamy distribution raises [TypeError], equal
    or different declared output shapes alike: where the graphs of the
    forward pass, the mean sample and the sample build, the call for the
    graph of the log-likelihood fails.  By then the three first entry points
    are assigned, the log-likelihood entry point is not, and the shapes have
    not been compared. *)
Theorem kumaraswamy_init_type_error {rng : Type}
    (symbolic : entry -> rng -> result rng)
    (distribution : ElementarySampler rng) (a_network b_network : Network)
    (given : list Layer) (stick_breaking : bool) (seed : Z) (st : State rng) :
  (forall e r, e <> LogLikelihood -> exists r', symbolic e r = Ok r') ->
  exists st',
    Kumaraswamy.__init__ symbolic distribution a_network b_network given
      stick_breaking seed st
    = (Raise TypeError, st')
    /\ is_Some (np_fprop (compiled st'))
    /\ is_Some (np_sample_mean_given_x (compiled st'))
    /\ is_Some (np_sample_given_x (compiled st'))
    /\ np_log_liklihood_given_x (compiled st')
       = np_log_liklihood_given_x (compiled st).
Proof.
  intros Hsym.
  unfold Kumaraswamy.__init__, DistributionDouble.__init__,
    Distribution.__init__, Distribution.set_seed,
    Distribution._set_theano_func, cbind, on_stream, on_entries.
  cbn [stream compiled Kumaraswamy.methods m_symbolic
       Distribution.set_log_likelihood Distribution.distribution].
  destruct (Hsym FProp (sampler_set_seed distribution seed (stream st)))
    as [r1 ->]; [done|]. cbn [stream compiled].
  destruct (Hsym SampleMean r1) as [r2 ->]; [done|]. cbn [stream compiled].
  destruct (Hsym Sample r2) as [r3 ->]; [done|]. cbn [stream compiled].
  eexists. split; [reflexivity|]. cbn. eauto 10.
Qed.

Lemma kumaraswamy_init_type_error_witness :
  exists st',
    Kumaraswamy.__init__ Examples.fast_graphs Examples.echo_sampler
      Examples.wide Examples.wide [Examples.in0] true 1 Examples.fresh
    = (Raise TypeError, st')
    /\ is_Some (np_fprop (compiled st'))
    /\ is_Some (np_sample_mean_given_x (compiled st'))
    /\ is_Some (np_sample_given_x (compiled st'))
    /\ np_log_liklihood_given_x (compiled st')
       = np_log_liklihood_given_x (compiled Examples.fresh).
Proof.
  apply (kumaraswamy_init_type_error Examples.fast_graphs
           Examples.echo_sampler Examples.wide Examples.wide [Examples.in0]
           true 1 Examples.fresh).
  intros e r _. eexists. reflexivity.
Defined.

(** X8.  Constructing a two-network distribution whose networks declare the
    same output shape succeeds where building the graphs raises nothing: the
    object holds the sampler, the two networks and the conditioning layers it
    was given, has its log-likelihood enabled, all four entry points are
    assigned and the stream is in its seeded state. *)
Theorem double_init_succeeds {rng : Type}
    (cls : DistributionDouble.obj rng -> Methods rng)
    (distribution : ElementarySampler rng) (mean_net var_net : Network)
    (given : list Layer) (seed : Z) (st : State rng) :
  lasagne_get_output_shape (net_layer mean_net)
  = lasagne_get_output_shape (net_layer var_net) ->
  (forall self e r, exists r', m_symbolic (cls self) e r = Ok r') ->
  exists self st',
    DistributionDouble.__init__ cls distribution mean_net var_net given seed st
    = (Ok self, st')
    /\ Distribution.distribution (DistributionDouble.base self) = distribution
    /\ Distribution.mean_network (DistributionDouble.base self) = mean_net
    /\ DistributionDouble.var_network self = var_net
    /\ Distribution.given (DistributionDouble.base self) = given
    /\ Distribution.set_log_likelihood (DistributionDouble.base self) = true
    /\ is_Some (np_fprop (compiled st'))
    /\ is_Some (np_sample_mean_given_x (compiled st'))
    /\ is_Some (np_sample_given_x (compiled st'))
    /\ is_Some (np_log_liklihood_given_x (compiled st'))
    /\ exists r, stream st' = sampler_set_seed distribution seed r.
Proof.
  intros Hshapes Hsym.
  unfold DistributionDouble.__init__, Distribution.__init__, cbind.
  set (self := Distribution.MkObj _ _ _ _ _ _).
  destruct (set_seed_runs (cls (DistributionDouble.MkObj self var_net)) self
              seed st (Hsym _))
    as (st' & -> & Hstream & H1 & H2 & H3 & H4).
  unfold cret. cbn [DistributionDouble.base DistributionDouble.var_network].
  rewrite bool_decide_eq_false_2 by (intros Hne; by apply Hne).
  eexists _, st'. split; [reflexivity|].
  rewrite H3. cbn. repeat split; eauto.
Qed.

Lemma double_init_succeeds_witness :
  exists self st',
    DistributionDouble.__init__
      (DistributionDouble.methods Examples.fast_graphs)
      Examples.shift_sampler Examples.wide Examples.wide [Examples.in0] 1
      Examples.used
    = (Ok self, st')
    /\ Distribution.distribution (DistributionDouble.base self)
       = Examples.shift_sampler
    /\ Distribution.mean_network (DistributionDouble.base self)
       = Examples.wide
    /\ DistributionDouble.var_network self = Examples.wide
    /\ Distribution.given (DistributionDouble.base self) = [Examples.in0]
    /\ Distribution.set_log_likelihood (DistributionDouble.base self) = true
    /\ is_Some (np_fprop (compiled st'))
    /\ is_Some (np_sample_mean_given_x (compiled st'))
    /\ is_Some (np_sample_given_x (compiled st'))
    /\ is_Some (np_log_liklihood_given_x (compiled st'))
    /\ exists r, stream st' = sampler_set_seed Examples.shift_sampler 1 r.
Proof.
  apply (double_init_succeeds
           (DistributionDouble.methods Examples.fast_graphs)
           Examples.shift_sampler Examples.wide Examples.wide
           [Examples.in0] 1 Examples.used).
  - reflexivity.
  - intros self e r. eexists. reflexivity.
Defined.

(** ** The stick-breaking transform *)

Section StickBreakingFacts.

Lemma stick_fold_unit v : forall rem,
  in_unit rem -> Forall in_unit v ->
  Forall in_unit (spec_stick_fold rem v).1
  /\ in_unit (spec_stick_fold rem v).2.
Proof.
  induction v as [|vi v IH]; intros rem Hrem Hv; simpl.
  - split; [constructor|done].
  - apply Forall_cons in Hv as [Hvi Hv].
    assert (Hnext : in_unit (rem * (1 - vi))%Q).
    { unfold in_unit in *. split; nra. }
    specialize (IH _ Hnext Hv).
    destruct (spec_stick_fold _ v) as [segments final]. simpl in *.
    destruct IH as [Hsegs Hfinal]. split; [|done].
    constructor; [|done]. unfold in_unit in *. split; nra.
Qed.

Lemma stick_row_unit row :
  Forall in_unit row -> Forall in_unit (spec_stick_row row).
Proof.
  intros Hrow. unfold spec_stick_row, spec_close_row.
  assert (Hshort : Forall in_unit (removelast row)).
  { rewrite removelast_take. by apply Forall_take. }
  assert (Hone : in_unit 1%Q) by (unfold in_unit; split; lra).
  pose proof (stick_fold_unit (removelast row) 1%Q Hone Hshort) as H.
  destruct (spec_stick_fold _ _) as [segments final]. simpl in H.
  destruct H as [Hsegs Hfinal]. apply Forall_app. split; [done|].
  by constructor.
Qed.

Lemma slices0_Forall (P : Q -> Prop) v :
  Forall P (data v) -> Forall (Forall P) (slices0 v).
Proof.
  intros Hv. unfold slices0. destruct (shape v) as [|b rest]; [constructor|].
  apply Forall_fmap, Forall_forall. intros i _. unfold slice0. simpl.
  by apply Forall_take, Forall_drop.
Qed.

(** The process in terms of rows, with the facts on the result that go with
    it. *)
Lemma stick_breaking_process_slices v n_batch n_dim :
  shape v = [n_batch; n_dim] -> wf v -> (2 <= n_dim)%nat ->
  exists w,
    Kumaraswamy._stick_breaking_process v = Ok w
    /\ shape w = [n_batch; n_dim]
    /\ data w = concat (map spec_stick_row (slices0 v))
    /\ slices0 w = map spec_stick_row (slices0 v)
    /\ wf w.
Proof.
  intros Hshape Hwf Hdim.
  rewrite (stick_breaking_rows v n_batch n_dim Hshape Hwf Hdim).
  eexists. split; [reflexivity|].
  pose proof (slices0_length v _ _ Hshape) as Hlen.
  pose proof (slices0_widths v _ _ Hshape Hwf) as Hw.
  simpl in Hw. rewrite Nat.mul_1_r in Hw.
  assert (Hrows : Forall (fun r => length r = n_dim)
                         (map spec_stick_row (slices0 v))).
  { apply Forall_fmap. eapply Forall_impl; [exact Hw|].
    intros row Hrow. simpl in *. rewrite length_stick_row; [done|].
    intros ->. simpl in Hrow. lia. }
  split; [reflexivity|]. split; [reflexivity|]. split.
  - rewrite <- Hlen at 1.
    rewrite <- (length_map spec_stick_row (slices0 v)).
    by apply (slices0_concat n_dim); [simpl; lia|].
  - unfold wf. simpl.
    rewrite (length_concat_uniform n_dim _ Hrows), length_map, Hlen. lia.
Qed.

End StickBreakingFacts.

(** X9.  On a well-formed draw of shape (batch, n_dim), n_dim at least 2,
    with all entries between 0 and 1, the stick-breaking process returns a
    well-formed tensor of the same shape whose entries all lie between 0
    and 1. *)
Theorem stick_breaking_weights_in_unit (v : tensor) (n_batch n_dim : nat) :
  shape v = [n_batch; n_dim] ->
  wf v ->
  (2 <= n_dim)%nat ->
  Forall in_unit (data v) ->
  exists w,
    Kumaraswamy._stick_breaking_process v = Ok w
    /\ shape w = shape v
    /\ wf w
    /\ Forall in_unit (data w).
Proof.
  intros Hshape Hwf Hdim Hunit.
  destruct (stick_breaking_process_slices v n_batch n_dim Hshape Hwf Hdim)
    as (w & Hw & Hsw & Hdata & _ & Hwfw).
  exists w. split; [done|]. split; [by rewrite Hsw, Hshape|].
  split; [done|]. rewrite Hdata. apply Forall_concat, Forall_fmap.
  eapply Forall_impl; [apply (slices0_Forall in_unit v Hunit)|].
  intros row Hrow. by apply stick_row_unit.
Qed.

Lemma stick_breaking_weights_in_unit_witness :
  exists w,
    Kumaraswamy._stick_breaking_process Instances.t23 = Ok w
    /\ shape w = shape Instances.t23
    /\ wf w
    /\ Forall in_unit (data w).
Proof.
  apply (stick_breaking_weights_in_unit Instances.t23 2%nat 3%nat).
  - reflexivity.
  - reflexivity.
  - lia.
  - repeat constructor; vm_compute; discriminate.
Defined.

(** X10.  The stick-breaking process does not read the last column of its
    argument: two well-formed draws of the same shape that agree on all
    columns but the last are transformed to the same tensor. *)
Theorem stick_breaking_ignores_last_column (v v' : tensor)
    (n_batch n_dim : nat) :
  shape v = [n_batch; n_dim] ->
  shape v' = [n_batch; n_dim] ->
  wf v -> wf v' ->
  (2 <= n_dim)%nat ->
  map (fun row => removelast row) (slices0 v)
  = map (fun row => removelast row) (slices0 v') ->
  Kumaraswamy._stick_breaking_process v
  = Kumaraswamy._stick_breaking_process v'.
Proof.
  intros Hs Hs' Hwf Hwf' Hdim Hagree.
  rewrite (stick_breaking_rows v n_batch n_dim Hs Hwf Hdim).
  rewrite (stick_breaking_rows v' n_batch n_dim Hs' Hwf' Hdim).
  do 3 f_equal. unfold spec_stick_row.
  change (map (fun row => spec_close_row 1 (removelast row)) (slices0 v)
          = map (fun row => spec_close_row 1 (removelast row)) (slices0 v')).
  rewrite <- (map_map (fun row => removelast row) (spec_close_row 1)
                (slices0 v)).
  rewrite <- (map_map (fun row => removelast row) (spec_close_row 1)
                (slices0 v')).
  by rewrite Hagree.
Qed.

Lemma stick_breaking_ignores_last_column_witness :
  Kumaraswamy._stick_breaking_process Instances.t23
  = Kumaraswamy._stick_breaking_process Instances.t23'.
Proof.
  apply (stick_breaking_ignores_last_column Instances.t23 Instances.t23'
           2%nat 3%nat).
  - reflexivity.
  - reflexivity.
  - reflexivity.
  - reflexivity.
  - lia.
  - reflexivity.
Defined.

(** ** The forward pass *)

Section Binding.

Lemma py_dict_from_lookup_notin (pairs : list (Layer * tensor))
    (m : gmap nat tensor) (k : nat) :
  k ∉ map (fun p => layer_id p.1) pairs ->
  foldl (fun m p => <[layer_id p.1 := p.2]> m) m pairs !! k = m !! k.
Proof.
  revert m. induction pairs as [|[g t] pairs IH]; intros m Hk; simpl; [done|].
  simpl in Hk. apply not_elem_of_cons in Hk as [Hne Hk].
  rewrite IH by done. by rewrite lookup_insert_ne.
Qed.

Lemma py_dict_from_lookup (pairs : list (Layer * tensor))
    (m : gmap nat tensor) (i : nat) (g : Layer) (t : tensor) :
  NoDup (map (fun p => layer_id p.1) pairs) ->
  pairs !! i = Some (g, t) ->
  foldl (fun m p => <[layer_id p.1 := p.2]> m) m pairs !! layer_id g
  = Some t.
Proof.
  revert m i. induction pairs as [|[g0 t0] pairs IH]; intros m i Hnd Hi;
    [done|].
  simpl in Hnd. apply NoDup_cons in Hnd as [Hfresh Hnd].
  destruct i as [|i]; simpl in *.
  - injection Hi as -> ->.
    rewrite py_dict_from_lookup_notin by done. apply lookup_insert_eq.
  - by apply (IH _ i).
Qed.

Lemma zip_keys (given : list Layer) (x : list tensor) :
  map (fun p : Layer * tensor => layer_id p.1) (zip given x)
  = take (length x) (map layer_id given).
Proof.
  revert x. induction given as [|g given IH]; intros [|t x]; simpl;
    try done.
  by rewrite IH.
Qed.

End Binding.

(** X12.  Where the conditioning layers are distinct, [fprop] hands the
    network a dictionary that binds the layer at position i to the input at
    position i and nothing else: a layer without an input at its position
    is left unbound, an input without a layer at its position is dropped. *)
Theorem fprop_binds_inputs_by_position {rng : Type}
    (self : Distribution.obj rng) (x : list tensor) (deterministic : bool) :
  NoDup (map layer_id (Distribution.given self)) ->
  exists inputs : gmap nat tensor,
    Distribution.fprop self x deterministic
    = Ok (get_output (Distribution.mean_network self) inputs deterministic)
    /\ (forall i g,
          Distribution.given self !! i = Some g ->
          inputs !! layer_id g = x !! i)
    /\ (forall k,
          k ∉ map layer_id (Distribution.given self) -> inputs !! k = None)
    /\ Distribution.fprop self (take (length (Distribution.given self)) x)
         deterministic
       = Distribution.fprop self x deterministic.
Proof.
  intros Hnd. exists (py_dict (zip (Distribution.given self) x)).
  split; [reflexivity|].
  set (given := Distribution.given self) in *.
  assert (Hkeys : NoDup (map (fun p : Layer * tensor => layer_id p.1)
                             (zip given x))).
  { rewrite zip_keys. eapply sublist_NoDup; [exact Hnd|apply sublist_take]. }
  split; [|split].
  - intros i g Hg. unfold py_dict.
    destruct (x !! i) as [t|] eqn:Hx.
    + apply (py_dict_from_lookup _ _ i); [done|].
      apply lookup_zip_with_Some. eauto.
    + rewrite py_dict_from_lookup_notin; [done|].
      rewrite zip_keys. intros Hin.
      apply list_elem_of_lookup in Hin as [j Hj].
      apply lookup_take_Some in Hj as [Hj Hlt].
      apply lookup_ge_None in Hx.
      assert (Hi : map layer_id given !! i = Some (layer_id g))
        by (by rewrite list_lookup_fmap, Hg).
      pose proof (NoDup_lookup _ _ _ _ Hnd Hi Hj). lia.
  - intros k Hk. unfold py_dict.
    rewrite py_dict_from_lookup_notin; [done|].
    rewrite zip_keys. intros Hin. apply Hk.
    by apply (subseteq_take (length x)).
  - subst given. unfold Distribution.fprop, py_zip.
    by rewrite (zip_with_take_r pair).
Qed.

Lemma fprop_binds_inputs_by_position_witness :
  exists inputs : gmap nat tensor,
    Distribution.fprop Examples.two_inputs [Examples.t22] true
    = Ok (get_output (Distribution.mean_network Examples.two_inputs) inputs
            true)
    /\ (forall i g,
          Distribution.given Examples.two_inputs !! i = Some g ->
          inputs !! layer_id g = [Examples.t22] !! i)
    /\ (forall k,
          k ∉ map layer_id (Distribution.given Examples.two_inputs) ->
          inputs !! k = None)
    /\ Distribution.fprop Examples.two_inputs
         (take (length (Distribution.given Examples.two_inputs))
               [Examples.t22]) true
       = Distribution.fprop Examples.two_inputs [Examples.t22] true.
Proof.
  apply (fprop_binds_inputs_by_position Examples.two_inputs [Examples.t22]
           true).
  simpl. apply NoDup_cons. split; [|apply NoDup_singleton].
  rewrite list_elem_of_singleton. discriminate.
Defined.

(** ** Repetition of the inputs *)

(** X13.  The inputs that [sample_given_x] returns for a [repeat] other
    than 1 are the given ones with every row (slice along the first axis)
    written [repeat] times in a row: well-formed inputs stay well formed,
    keep their trailing dimensions, and row i of a returned input is row
    i / repeat of the given one. *)
Theorem sample_given_x_repeats_rows {rng : Type}
    (self_fprop : list tensor -> bool -> result fprop_out)
    (self : Distribution.obj rng) (x : list tensor) (repeat : Z)
    (deterministic : bool) (s : rng) (x' : list tensor) (v : tensor)
    (s' : rng) :
  repeat <> 1 ->
  Forall wf x ->
  Distribution.sample_given_x self_fprop self x repeat deterministic s
  = Ok ((x', v), s') ->
  Forall2 (fun t t' =>
             wf t'
             /\ tail (shape t') = tail (shape t)
             /\ batch_dim t'
                = (fun b => (b * Z.to_nat repeat)%nat) <$> batch_dim t
             /\ slices0 t' = rows_repeated (Z.to_nat repeat) (slices0 t))
          x x'.
Proof.
  intros Hrepeat Hwf H.
  pose proof (sample_given_x_returns_repeated self_fprop self x repeat
                deterministic s x' v s' H) as Hx'.
  unfold repeated in Hx'. rewrite bool_decide_eq_true_2 in Hx' by done.
  apply rmap_Ok_Forall2 in Hx'.
  clear H. induction Hx' as [|t t' x x' Ht _ IH]; [constructor|].
  apply Forall_cons in Hwf as [Hwft Hwfx].
  constructor; [|by apply IH]. by apply T_repeat_rows.
Qed.

Lemma sample_given_x_repeats_rows_witness :
  Forall2 (fun t t' =>
             wf t'
             /\ tail (shape t') = tail (shape t)
             /\ batch_dim t' = (fun b => (b * Z.to_nat 2)%nat) <$> batch_dim t
             /\ slices0 t' = rows_repeated (Z.to_nat 2) (slices0 t))
          [Examples.t22]
          [Tensor [4%nat; 2%nat] [1; 2; 1; 2; 3; 4; 3; 4]%Q].
Proof.
  apply (sample_given_x_repeats_rows (Examples.plain Examples.one_input)
           Examples.one_input [Examples.t22] 2 false 0
           [Tensor [4%nat; 2%nat] [1; 2; 1; 2; 3; 4; 3; 4]%Q]
           (Tensor [4%nat; 2%nat]
              [1 + 0; 2 + 0; 1 + 0; 2 + 0; 3 + 0; 4 + 0; 3 + 0; 4 + 0]%Q)
           1).
  - discriminate.
  - repeat constructor.
  - vm_compute. reflexivity.
Defined.

(** ** Reshaping in the Dirichlet and Categorical families *)

Section ReshapeFacts.

Lemma reshape_nonneg t dims :
  Forall (fun d => 0 <= d) dims ->
  reshape t dims
  = if bool_decide (size_of (map Z.to_nat dims) = size_of (shape t))
    then Ok (Tensor (map Z.to_nat dims) (data t))
    else Raise ValueError.
Proof.
  intros Hdims. unfold reshape, known_dims.
  rewrite bool_decide_eq_false_2.
  2:{ rewrite Exists_exists. intros (d & Hd & Hlt).
      rewrite Forall_forall in Hdims. apply Hdims in Hd. lia. }
  assert (Hnone : filter (fun d => d = -1) dims = []).
  { induction Hdims as [|d dims Hd _ IH]; [done|].
    rewrite filter_cons_False by lia. exact IH. }
  assert (Hall : filter (fun d => d <> -1) dims = dims).
  { clear Hnone. induction Hdims as [|d dims Hd _ IH]; [done|].
    rewrite filter_cons_True by lia. by rewrite IH. }
  by rewrite Hnone, Hall.
Qed.

Lemma reshape_infer_inv t w t' :
  reshape t [-1; w] = Ok t' ->
  0 < w
  /\ data t' = data t
  /\ exists b, shape t' = [b; Z.to_nat w]
               /\ size_of (shape t) = (b * Z.to_nat w)%nat.
Proof.
  unfold reshape, known_dims. intros H.
  destruct (bool_decide_reflect (Exists (fun d => d < -1) [-1; w]))
    as [Hex|Hex]; [discriminate|].
  assert (Hlow : -1 <= w).
  { destruct (decide (w < -1)); [|lia]. exfalso. apply Hex.
    rewrite !Exists_cons. tauto. }
  destruct (decide (w = -1)) as [->|Hne].
  { rewrite !filter_cons_True in H by lia. simpl in H. discriminate. }
  rewrite (filter_cons_True (fun d => d = -1)) in H by lia.
  rewrite (filter_cons_False (fun d => d = -1)) in H by lia.
  rewrite (filter_cons_False (fun d => d <> -1)) in H by lia.
  rewrite (filter_cons_True (fun d => d <> -1)) in H by lia.
  rewrite !filter_nil in H. simpl in H. rewrite Nat.mul_1_r in H.
  destruct (bool_decide_reflect (Z.to_nat w = 0%nat)) as [|Hpos];
    [discriminate|].
  destruct (bool_decide_reflect
              ((size_of (shape t) mod Z.to_nat w)%nat = 0%nat))
    as [Hmod|]; [|discriminate].
  injection H as <-. simpl.
  rewrite (bool_decide_eq_false_2 (w = -1)) by lia.
  split; [lia|]. split; [done|]. eexists. split; [reflexivity|].
  apply Nat.Div0.div_exact in Hmod. lia.
Qed.

End ReshapeFacts.

(** X14.  Where [/] on two integers is the integer quotient (Python 2) and
    the predictor output of a Dirichlet distribution has shape
    (batch, width) with a non-empty batch and a width that k > 0 does not
    divide, [sample_given_x] raises [ValueError]: the parameters cannot be
    split into groups of k and nothing is drawn. *)
Theorem dirichlet_indivisible_width {rng : Type} (self : Dirichlet.obj rng)
    (x : list tensor) (repeat : Z) (deterministic : bool) (s : rng)
    (x' : list tensor) (mean : tensor) (batch width : nat) :
  0 < Dirichlet.k self ->
  repeated x repeat = Ok x' ->
  Distribution.fprop (Dirichlet.base self) x' deterministic = Ok mean ->
  shape mean = [batch; width] ->
  (0 < batch)%nat ->
  Z.of_nat width mod Dirichlet.k self <> 0 ->
  Dirichlet.sample_given_x Python2 self x repeat deterministic s
  = Raise ValueError.
Proof.
  intros Hk Hx' Hmean Hshape Hbatch Hmod.
  unfold Dirichlet.sample_given_x. unfold repeated in Hx'.
  rewrite Hx'. cbn [rbind]. rewrite Hmean. cbn [rbind].
  rewrite Hshape. cbn [shape_at lookup list_lookup rbind].
  cbn [py_div integer_dim rbind].
  set (k := Dirichlet.k self) in *.
  pose proof (Z.div_mod (Z.of_nat width) k ltac:(lia)) as Hdm.
  pose proof (Z.mod_pos_bound (Z.of_nat width) k Hk) as Hbound.
  assert (Hq : 0 <= Z.of_nat width / k) by (apply Z.div_pos; lia).
  rewrite reshape_nonneg by (repeat constructor; lia).
  rewrite bool_decide_eq_false_2; [reflexivity|].
  rewrite Hshape. simpl. rewrite !Nat2Z.id, !Nat.mul_1_r.
  intros Heq. apply Nat.mul_cancel_l in Heq; [|lia].
  apply (f_equal Z.of_nat) in Heq.
  rewrite Nat2Z.inj_mul, !Z2Nat.id in Heq by lia. lia.
Qed.

Lemma dirichlet_indivisible_width_witness :
  Dirichlet.sample_given_x Python2 Examples.dirichlet [Instances.t27] 1 false
    0
  = Raise ValueError.
Proof.
  apply (dirichlet_indivisible_width Examples.dirichlet [Instances.t27] 1
           false 0 [Instances.t27] Instances.t27 2%nat 7%nat).
  - reflexivity.
  - reflexivity.
  - vm_compute. reflexivity.
  - reflexivity.
  - lia.
  - discriminate.
Defined.

(** X15.  Whatever the sampler does and whatever [/] means, a sample that
    [sample_given_x] of a Dirichlet distribution returns has the shape of
    the predictor output on the returned inputs. *)
Theorem dirichlet_sample_keeps_shape {rng : Type} (py : python)
    (self : Dirichlet.obj rng) (x : list tensor) (repeat : Z) (deterministic : bool) (s : rng)
    (x' : list tensor) (output : tensor) (s' : rng) :
  Dirichlet.sample_given_x py self x repeat deterministic s
  = Ok ((x', output), s') ->
  exists mean,
    repeated x repeat = Ok x'
    /\ Distribution.fprop (Dirichlet.base self) x' deterministic = Ok mean
    /\ shape output = shape mean.
Proof.
  unfold Dirichlet.sample_given_x, repeated. intros H.
  destruct (if bool_decide (repeat <> 1) then _ else _) as [x0|e];
    cbn [rbind] in H; [|discriminate].
  rewrite fprop_returns in *. cbn [rbind] in H.
  set (mean := get_output _ _ _) in *.
  destruct (shape_at (shape mean) 0) as [s0|e]; cbn [rbind] in H;
    [|discriminate].
  destruct (shape_at (shape mean) 1) as [s1|e]; cbn [rbind] in H;
    [|discriminate].
  destruct (integer_dim _) as [d|e]; cbn [rbind] in H; [|discriminate].
  destruct (reshape mean _) as [m|e]; cbn [rbind] in H; [|discriminate].
  destruct (sampler_sample _ _ s) as [[v r']|e]; cbn [rbind] in H;
    [|discriminate].
  rewrite reshape_nonneg in H.
  2:{ apply Forall_fmap, Forall_forall. intros n _. simpl. lia. }
  destruct (bool_decide _); cbn [rbind] in H; [|discriminate].
  injection H as <- <- <-. exists mean.
  split; [done|]. split; [done|]. simpl. clear.
  induction (shape mean) as [|n l IH]; simpl; [done|].
  f_equal; [apply Nat2Z.id|exact IH].
Qed.

Lemma dirichlet_sample_keeps_shape_witness :
  exists mean,
    repeated [Examples.t28] 1 = Ok [Examples.t28]
    /\ Distribution.fprop (Dirichlet.base Examples.dirichlet)
         [Examples.t28] false = Ok mean
    /\ shape (Tensor [2%nat; 8%nat] (replicate 16 (1 + 5)%Q)) = shape mean.
Proof.
  apply (dirichlet_sample_keeps_shape Python2 Examples.dirichlet
           [Examples.t28] 1
           false 5 [Examples.t28]
           (Tensor [2%nat; 8%nat] (replicate 16 (1 + 5)%Q)) 6).
  vm_compute. reflexivity.
Defined.

(** X17.  Where [/] on two integers is the true quotient (Python 3), a
    Dirichlet distribution never samples.  On every predictor output with at
    least two axes [sample_given_x] raises [TypeError], whatever k, the
    inputs and the sampler are; and the constructor raises [TypeError] while
    it builds the graph of the sample: the forward and mean entry points are
    assigned by then, the sampling entry point is not. *)
Theorem dirichlet_python3_type_error {rng : Type}
    (symbolic : entry -> rng -> result rng)
    (distribution : ElementarySampler rng) (alpha_network : Network)
    (given : list Layer) (k seed : Z) (st : State rng)
    (self : Dirichlet.obj rng) (x : list tensor) (repeat : Z)
    (deterministic : bool) (s : rng) (x' : list tensor) (mean : tensor) :
  (forall r, exists r', symbolic FProp r = Ok r') ->
  (forall r, exists r', symbolic SampleMean r = Ok r') ->
  repeated x repeat = Ok x' ->
  Distribution.fprop (Dirichlet.base self) x' deterministic = Ok mean ->
  (2 <= length (shape mean))%nat ->
  Dirichlet.sample_given_x Python3 self x repeat deterministic s
  = Raise TypeError
  /\ exists st',
       Dirichlet.__init__ Python3 symbolic distribution alpha_network given
         k seed st
       = (Raise TypeError, st')
       /\ is_Some (np_fprop (compiled st'))
       /\ is_Some (np_sample_mean_given_x (compiled st'))
       /\ np_sample_given_x (compiled st') = np_sample_given_x (compiled st).
Proof.
  intros Hf Hm Hx' Hmean Hlen. split.
  - unfold Dirichlet.sample_given_x. unfold repeated in Hx'.
    rewrite Hx'. cbn [rbind]. rewrite Hmean. cbn [rbind].
    destruct (shape mean) as [|s0 [|s1 rest]]; simpl in Hlen; [lia|lia|].
    reflexivity.
  - unfold Dirichlet.__init__, Distribution.__init__, Distribution.set_seed,
      Distribution._set_theano_func, cbind, on_stream, on_entries.
    cbn [stream compiled Dirichlet.methods m_symbolic
         Distribution.set_log_likelihood Distribution.distribution].
    destruct (Hf (sampler_set_seed distribution seed (stream st)))
      as [r1 ->]. cbn [stream compiled].
    destruct (Hm r1) as [r2 ->]. cbn [stream compiled].
    eexists. split; [reflexivity|]. cbn. eauto 10.
Qed.

Lemma dirichlet_python3_type_error_witness :
  Dirichlet.sample_given_x Python3 Examples.dirichlet [Examples.t28] 1 false 5
  = Raise TypeError
  /\ exists st',
       Dirichlet.__init__ Python3 Examples.fast_graphs Examples.shift_sampler
         Examples.wide [Examples.in0] 4 1 Examples.fresh
       = (Raise TypeError, st')
       /\ is_Some (np_fprop (compiled st'))
       /\ is_Some (np_sample_mean_given_x (compiled st'))
       /\ np_sample_given_x (compiled st')
          = np_sample_given_x (compiled Examples.fresh).
Proof.
  apply (dirichlet_python3_type_error Examples.fast_graphs
           Examples.shift_sampler Examples.wide [Examples.in0] 4 1
           Examples.fresh Examples.dirichlet [Examples.t28] 1 false 5
           [Examples.t28] Examples.t28).
  - intros r. eexists. reflexivity.
  - intros r. eexists. reflexivity.
  - reflexivity.
  - vm_compute. reflexivity.
  - simpl. lia.
Defined.

(** X16.  Whatever the predictor and the sampler return, the tensors that
    [fprop] and [sample_given_x] of a Categorical distribution return are
    matrices with the same number n_dim * K of columns, n_dim * K positive;
    the flattened mean holds the entries of the predictor output. *)
Theorem categorical_results_are_flat {rng : Type}
    (self : Categorical.obj rng) (x : list tensor) (repeat : Z)
    (deterministic : bool) (s : rng) (x' : list tensor)
    (mean output : tensor) (s' : rng) :
  Categorical.fprop self x' deterministic = Ok mean ->
  Categorical.sample_given_x self x repeat deterministic s
  = Ok ((x', output), s') ->
  exists K b b',
    Categorical.k self = Some K
    /\ 0 < Categorical.n_dim self * Z.of_nat K
    /\ shape mean = [b; Z.to_nat (Categorical.n_dim self * Z.of_nat K)]
    /\ shape output = [b'; Z.to_nat (Categorical.n_dim self * Z.of_nat K)]
    /\ data mean
       = data (get_output
                 (Distribution.mean_network (Categorical.base self))
                 (py_dict (zip (Distribution.given (Categorical.base self))
                               x'))
                 deterministic).
Proof.
  unfold Categorical.fprop, Categorical.sample_given_x,
    Categorical.n_dim_times_k.
  rewrite fprop_returns. cbn [rbind]. intros Hf Hs.
  destruct (Categorical.k self) as [K|]; cbn [rbind] in Hf; [|discriminate].
  destruct (reshape _ _) as [m|e] eqn:Hm; cbn [rbind] in Hf; [|discriminate].
  injection Hf as <-.
  apply reshape_infer_inv in Hm as (Hpos & Hdata & b & Hshape & _).
  destruct (if bool_decide (repeat <> 1) then _ else _) as [x0|e];
    cbn [rbind] in Hs; [|discriminate].
  rewrite fprop_returns in Hs. cbn [rbind] in Hs.
  destruct (sampler_sample _ _ s) as [[v r']|e]; cbn [rbind] in Hs;
    [|discriminate].
  destruct (reshape v _) as [o|e] eqn:Ho; cbn [rbind] in Hs; [|discriminate].
  injection Hs as <- <- <-.
  apply reshape_infer_inv in Ho as (_ & _ & b' & Hshape' & _).
  exists K, b, b'. eauto 10.
Qed.

Lemma categorical_results_are_flat_witness :
  exists K b b',
    Categorical.k Examples.categorical = Some K
    /\ 0 < Categorical.n_dim Examples.categorical * Z.of_nat K
    /\ shape (Tensor [1%nat; 6%nat] (replicate 6 1%Q))
       = [b; Z.to_nat (Categorical.n_dim Examples.categorical * Z.of_nat K)]
    /\ shape (Tensor [1%nat; 6%nat] (replicate 6 (1 + 0)%Q))
       = [b'; Z.to_nat (Categorical.n_dim Examples.categorical * Z.of_nat K)]
    /\ data (Tensor [1%nat; 6%nat] (replicate 6 1%Q))
       = data (get_output
                 (Distribution.mean_network
                    (Categorical.base Examples.categorical))
                 (py_dict
                    (zip (Distribution.given
                            (Categorical.base Examples.categorical))
                         [Examples.t123]))
                 false).
Proof.
  apply (categorical_results_are_flat Examples.categorical [Examples.t123] 1
           false 0 [Examples.t123]
           (Tensor [1%nat; 6%nat] (replicate 6 1%Q))
           (Tensor [1%nat; 6%nat] (replicate 6 (1 + 0)%Q)) 1).
  - vm_compute. reflexivity.
  - vm_compute. reflexivity.
Defined.
